(** * The Apache Phoenix handler of MindsDB, embedded in Rocq

    Source: mindsdb/integrations/handlers/phoenix_handler/phoenix_handler.py

    The handler is a thin layer over three collaborators that live outside
    the repository: the [phoenixdb] DB-API driver, [pandas] and the logger.
    The driver is a parameter of the development (a record of operations
    over an abstract driver state, every one of which may raise); the few
    [pandas] operations the handler calls are modelled on frames that are a
    list of column labels and a list of rows, the cells of a column having
    the type that [pandas] infers for it; logging appends to a list.

    Python objects that the handler mutates are modelled with explicit
    state: the handler's own fields ([self]), the store of dictionaries in
    which the caller's [connection_data] lives (the handler keeps a
    reference to the caller's object, not a copy), the state of the driver,
    and the sequence of calls the handler has made on the driver. *)

From Stdlib Require Floats.SpecFloat.
From stdpp Require Import base strings list functions gmap pretty.

Set Default Proof Using "Type".

(** ** Python values, exceptions and outcomes *)

(** The scalar values that occur in connection parameters and in cells of
    result rows and of frames.  A [float] is an IEEE 754 double, in the
    Standard Library's specification of binary floating-point numbers. *)
#[global] Instance spec_float_eq_dec : EqDecision SpecFloat.spec_float.
Proof. solve_decision. Defined.

Inductive pyval :=
| PNone
| PBool (b : bool)
| PInt (z : Z)
| PFloat (f : SpecFloat.spec_float)
| PStr (s : string).

#[global] Instance pyval_eq_dec : EqDecision pyval.
Proof. solve_decision. Defined.

(** An instance of [Exception]: its class name and the text [str(e)].
    Signals that derive from [BaseException] only (KeyboardInterrupt,
    SystemExit) are outside the model, so [except Exception] catches every
    exception of the model. *)
Record exn := Exn { exn_class : string; exn_str : string }.

#[global] Instance exn_eq_dec : EqDecision exn.
Proof. solve_decision. Defined.

Inductive outcome (A : Type) :=
| Return (a : A)
| Raise (e : exn).
Arguments Return {A} a.
Arguments Raise {A} e.

(** ** A state and exception monad

    A computation runs on a state [S] and ends by returning a value or by
    raising; the state changes made before a raise persist, as in Python. *)
Definition M (S A : Type) : Type := S → outcome A * S.

#[global] Instance M_ret {S} : MRet (M S) := λ A a s, (Return a, s).

#[global] Instance M_bind {S} : MBind (M S) := λ A B k m s,
  match m s with
  | (Return a, s') => k a s'
  | (Raise e, s') => (Raise e, s')
  end.

Definition raise {S A} (e : exn) : M S A := λ s, (Raise e, s).

Definition gets {S A} (f : S → A) : M S A := λ s, (Return (f s), s).

Definition modify {S} (f : S → S) : M S unit := λ s, (Return tt, f s).

(** [try: m  except Exception as e: handler e] *)
Definition try_except {S A} (m : M S A) (handler : exn → M S A) : M S A :=
  λ s, match m s with
       | (Return a, s') => (Return a, s')
       | (Raise e, s') => handler e s'
       end.

(** A computation on a part [S] of the state, run inside a larger state. *)
Definition zoom {S T A} (get : T → S) (put : S → T → T) (m : M S A) : M T A :=
  λ t, let '(r, s') := m (get t) in (r, put s' t).

(** ** The database driver (external collaborator) *)

(** Connection and cursor objects are identified by a number. *)
Definition Conn := nat.
Definition Cursor := nat.

(** The keyword arguments of [phoenixdb.connect]. *)
Record ConnectArgs := mkConnectArgs {
  arg_url : pyval;
  arg_max_retries : pyval;
  arg_autocommit : pyval;
  arg_auth : pyval;
  arg_authentication : pyval;
  arg_avatica_user : pyval;
  arg_avatica_password : pyval;
  arg_user : pyval;
  arg_password : pyval
}.

#[global] Instance ConnectArgs_eq_dec : EqDecision ConnectArgs.
Proof. solve_decision. Defined.

(** An entry of [cursor.description].  DB-API entries are 7-tuples; the
    handler reads items 0 (the name) and 1 (the type code) only.  The type
    code of phoenixdb is the name of the column's SQL type, a string. *)
Record ColumnDesc := mkColumnDesc {
  cd_name : string;
  cd_type_code : string
}.

Definition Row := list pyval.

(** Modelled from the spec: the driver interface ([open], [cursor],
    [execute], [fetchAll], [description], [commit], [close]) of section 6.
    [D] is the state of the driver and of the server behind it.  Every call
    may raise; [description] is an attribute read, [None] when the cursor
    has no result set. *)
Record Driver (D : Type) := mkDriver {
  drv_connect : ConnectArgs → D → outcome Conn * D;
  drv_cursor : Conn → D → outcome Cursor * D;
  drv_execute : Cursor → string → D → outcome unit * D;
  drv_fetchall : Cursor → D → outcome (list Row) * D;
  drv_description : Cursor → D → option (list ColumnDesc);
  drv_commit : Conn → D → outcome unit * D;
  drv_cursor_close : Cursor → D → outcome unit * D;
  drv_close : Conn → D → outcome unit * D
}.
Arguments drv_connect {D} _ _ _.
Arguments drv_cursor {D} _ _ _.
Arguments drv_execute {D} _ _ _ _.
Arguments drv_fetchall {D} _ _ _.
Arguments drv_description {D} _ _ _.
Arguments drv_commit {D} _ _ _.
Arguments drv_cursor_close {D} _ _ _.
Arguments drv_close {D} _ _ _.

(** The calls the handler makes on the driver, as a fake driver would
    record them. *)
Inductive Call :=
| CallConnect (args : ConnectArgs)
| CallCursor (c : Conn)
| CallExecute (cur : Cursor) (q : string)
| CallFetchall (cur : Cursor)
| CallCommit (c : Conn)
| CallCursorClose (cur : Cursor)
| CallClose (c : Conn).

#[global] Instance Call_eq_dec : EqDecision Call.
Proof. solve_decision. Defined.

(** ** The world outside the handler *)

Definition loc := nat.

#[global] Instance loc_eq_dec : EqDecision loc := Nat.eq_dec.
Abbreviation dict := (gmap string pyval).

(** [heap] holds the dictionary objects, by reference; [dstate] is the
    driver's state; [calls] the driver calls made so far, oldest first;
    [errlog] the messages passed to [log.logger.error]. *)
Record World (D : Type) := mkWorld {
  heap : loc → dict;
  dstate : D;
  calls : list Call;
  errlog : list string
}.
Arguments mkWorld {D} _ _ _ _.
Arguments heap {D} _.
Arguments dstate {D} _.
Arguments calls {D} _.
Arguments errlog {D} _.

Definition set_heap {D} (f : (loc → dict) → (loc → dict)) (w : World D) : World D :=
  mkWorld (f (heap w)) (dstate w) (calls w) (errlog w).

(** ** pandas frames *)

Record DataFrame := mkDataFrame {
  df_columns : list string;
  df_rows : list Row
}.

#[global] Instance DataFrame_eq_dec : EqDecision DataFrame.
Proof. solve_decision. Defined.

(** ** Response envelopes

    Modelled from the spec: [HandlerResponse] and [HandlerStatusResponse]
    of mindsdb.integrations.libs.response, which is not among the sources.
    The fields are those the handler passes or reads; a field that a
    constructor call does not pass is [None]. *)
Inductive RESPONSE_TYPE := TABLE | OK | ERROR.

#[global] Instance RESPONSE_TYPE_eq_dec : EqDecision RESPONSE_TYPE.
Proof. solve_decision. Defined.

Record Response := mkResponse {
  resp_type : RESPONSE_TYPE;
  data_frame : option DataFrame;
  error_message : option string
}.

Record StatusResponse := mkStatusResponse {
  success : bool;
  status_error_message : option string
}.

(** ** The pandas operations the handler uses *)

(** *** The type of a column

    [pd.DataFrame] on a list of rows stores the cells by column and gives
    every column a type, which [lib.maybe_convert_objects] infers from the
    cells (numpy backend, no string inference).  The function walks the
    column once, noting in [Seen] what it meets, and stops at the first
    cell that forces the column to stay a column of Python objects. *)
Definition INT64_MIN : Z := - 2 ^ 63.
Definition INT64_MAX : Z := 2 ^ 63 - 1.
Definition UINT64_MAX : Z := 2 ^ 64 - 1.

(** [float(z)]: the nearest double, ties to even. *)
Definition float_of_int (z : Z) : SpecFloat.spec_float :=
  SpecFloat.binary_normalize 53 1024 z 0 false.

Definition nan : pyval := PFloat SpecFloat.S754_nan.

Record Seen := mkSeen {
  null_ : bool;
  nan_ : bool;
  uint_ : bool;
  sint_ : bool;
  int_ : bool;
  float_ : bool;
  bool_ : bool;
  object_ : bool
}.

Definition no_seen : Seen := mkSeen false false false false false false false false.

Definition see_null (seen : Seen) : Seen :=
  mkSeen true (nan_ seen) (uint_ seen) (sint_ seen) (int_ seen) (float_ seen)
         (bool_ seen) (object_ seen).

Definition see_nan (seen : Seen) : Seen :=
  mkSeen (null_ seen) true (uint_ seen) (sint_ seen) (int_ seen) (float_ seen)
         (bool_ seen) (object_ seen).

Definition see_int (seen : Seen) : Seen :=
  mkSeen (null_ seen) (nan_ seen) (uint_ seen) (sint_ seen) true (float_ seen)
         (bool_ seen) (object_ seen).

Definition see_float (seen : Seen) : Seen :=
  mkSeen (null_ seen) (nan_ seen) (uint_ seen) (sint_ seen) (int_ seen) true
         (bool_ seen) (object_ seen).

Definition see_bool (seen : Seen) : Seen :=
  mkSeen (null_ seen) (nan_ seen) (uint_ seen) (sint_ seen) (int_ seen) (float_ seen)
         true (object_ seen).

Definition see_object (seen : Seen) : Seen :=
  mkSeen (null_ seen) (nan_ seen) (uint_ seen) (sint_ seen) (int_ seen) (float_ seen)
         (bool_ seen) true.

(** [Seen.saw_int]: the integer needs a signed or an unsigned 64-bit
    column. *)
Definition saw_int (val : Z) (seen : Seen) : Seen :=
  mkSeen (null_ seen) (nan_ seen)
         (uint_ seen || bool_decide (INT64_MAX < val ≤ UINT64_MAX)%Z)
         (sint_ seen || bool_decide (INT64_MIN ≤ val < 0)%Z)
         true (float_ seen) (bool_ seen) (object_ seen).

(** The cell of a column of doubles: [None] is NaN. *)
Definition as_float (val : pyval) : pyval :=
  match val with
  | PNone => nan
  | PInt z => PFloat (float_of_int z)
  | _ => val
  end.

(** The walk.  An integer is converted to a double where it is met, which
    raises [OverflowError] from 2^1024 - 2^970 on, where the nearest double
    is infinite; its range is checked only while no [None] has been met.  A
    string ends the walk. *)
Fixpoint scan (objects : list pyval) (seen : Seen) : outcome Seen :=
  match objects with
  | [] => Return seen
  | val :: objects =>
      match val with
      | PNone => scan objects (see_null seen)
      | PFloat SpecFloat.S754_nan => scan objects (see_nan seen)
      | PBool _ => scan objects (see_bool seen)
      | PFloat _ => scan objects (see_float seen)
      | PInt z =>
          if decide (Z.abs z < 2 ^ 1024 - 2 ^ 970)%Z then
            let seen := see_int seen in
            if null_ seen then scan objects seen
            else
              let seen := saw_int z seen in
              if uint_ seen && sint_ seen
                 || bool_decide (UINT64_MAX < z)%Z || bool_decide (z < INT64_MIN)%Z
              then Return (see_object seen)
              else scan objects seen
          else Raise (Exn "OverflowError" "int too large to convert to float")
      | PStr _ => Return (see_object seen)
      end
  end.

(** The converted column: doubles when the column holds numbers and a
    double or a missing value, the cells as they are otherwise (a column of
    integers, of booleans, or of objects). *)
Definition maybe_convert_objects (objects : list pyval) : outcome (list pyval) :=
  match scan objects no_seen with
  | Return seen =>
      Return (if object_ seen || bool_ seen then objects
              else if float_ seen || nan_ seen || null_ seen && int_ seen
                   then as_float <$> objects
                   else objects)
  | Raise e => Raise e
  end.

Fixpoint convert_object_array (content : list (list pyval)) : outcome (list (list pyval)) :=
  match content with
  | [] => Return []
  | arr :: content =>
      match maybe_convert_objects arr with
      | Return arr =>
          match convert_object_array content with
          | Return arrays => Return (arr :: arrays)
          | Raise e => Raise e
          end
      | Raise e => Raise e
      end
  end.

Definition pad (k : nat) (r : Row) : Row := r ++ replicate (k - length r) PNone.

(** The cells at position [i] of the rows, and the first [k] such lists:
    the columns of rows, and the rows of columns. *)
Definition column (i : nat) (rows : list (list pyval)) : list pyval :=
  (λ r, default PNone (r !! i)) <$> rows.

Definition transpose (k : nat) (rows : list (list pyval)) : list (list pyval) :=
  (λ i, column i rows) <$> seq 0 k.

Section Pandas.
Context {S : Type}.

(** [pd.DataFrame(data, columns=columns)] on a list of rows.  The width of
    the data is that of its longest row, shorter rows are filled with
    [None]; a width other than the number of labels raises.  The cells are
    stored by column, each column with the type inferred for it.  Without
    rows the frame has the labels and no row. *)
Definition pd_DataFrame (data : list Row) (columns : list string) : M S DataFrame :=
  match data with
  | [] => mret (mkDataFrame columns [])
  | _ :: _ =>
      let k := max_list (length <$> data) in
      if decide (k = length columns)
      then
        match convert_object_array (transpose k (pad k <$> data)) with
        | Return arrays => mret (mkDataFrame columns (transpose (length data) arrays))
        | Raise e => raise e
        end
      else raise (Exn "ValueError"
                      (pretty (length columns) +:+ " columns passed, passed data had "
                       +:+ pretty k +:+ " columns"))
  end.

(** The operations below are those of [get_tables].  They are modelled for
    frames whose labels are pairwise distinct, where [df[label]] is a
    series; with a repeated label pandas returns a frame instead, which is
    not modelled, and no theorem below is about such a frame. *)

(** [df[label]]: the cells of the column, [KeyError] without the label. *)
Definition df_getitem (df : DataFrame) (label : string) : M S (list pyval) :=
  match list_find (λ c, c = label) (df_columns df) with
  | Some (i, _) => mret ((λ r : Row, default PNone (r !! i)) <$> df_rows df)
  | None => raise (Exn "KeyError" ("'" +:+ label +:+ "'"))
  end.

(** [series != value], cell by cell. *)
Definition series_ne (s : list pyval) (v : pyval) : list bool :=
  (λ x, bool_decide (x ≠ v)) <$> s.

(** [df[mask]]: the rows whose entry in the boolean series is [True]. *)
Definition df_select (df : DataFrame) (mask : list bool) : DataFrame :=
  mkDataFrame (df_columns df)
              ((filter (λ p : bool * Row, p.1 = true) (zip mask (df_rows df))).*2).

(** The cells of a row that are not under [label]. *)
Definition drop_cells (columns : list string) (label : string) (r : Row) : Row :=
  (filter (λ p : string * pyval, p.1 ≠ label) (zip columns r)).*2.

(** [df.drop(label, axis=1)] *)
Definition df_drop (df : DataFrame) (label : string) : M S DataFrame :=
  if decide (label ∈ df_columns df)
  then mret (mkDataFrame (filter (λ c, c ≠ label) (df_columns df))
                         (drop_cells (df_columns df) label <$> df_rows df))
  else raise (Exn "KeyError" ("['" +:+ label +:+ "'] not found in axis")).

(** [df.columns[i]] *)
Definition df_columns_getitem (df : DataFrame) (i : nat) : M S string :=
  match df_columns df !! i with
  | Some c => mret c
  | None => raise (Exn "IndexError"
                       ("index " +:+ pretty i +:+ " is out of bounds for axis 0 with size "
                        +:+ pretty (length (df_columns df))))
  end.

(** [df.rename(columns={old: new})] *)
Definition df_rename (df : DataFrame) (old new : string) : DataFrame :=
  mkDataFrame ((λ c, if decide (c = old) then new else c) <$> df_columns df)
              (df_rows df).

End Pandas.

(** ** The handler *)

Module PhoenixHandler.

(** The fields of a handler instance.  [connection_data] is a reference to
    the caller's dictionary; [connection] is [None] or the driver's
    connection object.  ([self.parser] and [self.kwargs] are stored and
    never read.) *)
Record Handler := mkHandler {
  name : string;
  dialect : string;
  connection_data : loc;
  connection : option Conn;
  is_connected : bool
}.

Definition set_connection (c : option Conn) (h : Handler) : Handler :=
  mkHandler (name h) (dialect h) (connection_data h) c (is_connected h).

Definition set_is_connected (b : bool) (h : Handler) : Handler :=
  mkHandler (name h) (dialect h) (connection_data h) (connection h) b.

Definition set_data_frame (df : option DataFrame) (r : Response) : Response :=
  mkResponse (resp_type r) df (error_message r).

Definition set_success (b : bool) (r : StatusResponse) : StatusResponse :=
  mkStatusResponse b (status_error_message r).

Definition set_status_error_message (m : option string) (r : StatusResponse) : StatusResponse :=
  mkStatusResponse (success r) m.

Definition newline : string := String (Ascii.ascii_of_nat 10) EmptyString.

Section WithDriver.
Context {D : Type} (drv : Driver D).

(** The state a method runs on: [self] and the world. *)
Definition State : Type := Handler * World D.

Definition self {A} (f : Handler → A) : M State A := gets (λ s, f s.1).

Definition self_set (f : Handler → Handler) : M State unit :=
  modify (λ s, (f s.1, s.2)).

Definition in_world {A} (m : M (World D) A) : M State A :=
  zoom snd (λ w s, (s.1, w)) m.

(** A call on the driver: it is recorded, and the driver's state moves. *)
Definition invoke {A} (c : Call) (f : D → outcome A * D) : M State A :=
  λ s, let '(r, d) := f (dstate s.2) in
       (r, (s.1, mkWorld (heap s.2) d (calls s.2 ++ [c]) (errlog s.2))).

(** [log.logger.error(msg)] *)
Definition log_error (msg : string) : M State unit :=
  modify (λ s, (s.1, mkWorld (heap s.2) (dstate s.2) (calls s.2) (errlog s.2 ++ [msg]))).

(** *** Dictionary objects *)

(** [key in d] *)
Definition dict_contains (d : loc) (key : string) : M (World D) bool :=
  gets (λ w, bool_decide (is_Some (heap w d !! key))).

(** [d[key] = v] *)
Definition dict_setitem (d : loc) (key : string) (v : pyval) : M (World D) unit :=
  modify (set_heap (λ hp, <[d := <[key := v]> (hp d)]> hp)).

(** [d[key]] *)
Definition dict_getitem (d : loc) (key : string) : M (World D) pyval :=
  λ w, match heap w d !! key with
       | Some v => (Return v, w)
       | None => (Raise (Exn "KeyError" ("'" +:+ key +:+ "'")), w)
       end.

(** *** Methods of connection and cursor objects

    The receiver is a Python value that may be [None]. *)
Definition AttributeError_None (attr : string) : exn :=
  Exn "AttributeError" ("'NoneType' object has no attribute '" +:+ attr +:+ "'").

Definition connection_cursor (c : option Conn) : M State Cursor :=
  match c with
  | Some c => invoke (CallCursor c) (drv_cursor drv c)
  | None => raise (AttributeError_None "cursor")
  end.

Definition connection_commit (c : option Conn) : M State unit :=
  match c with
  | Some c => invoke (CallCommit c) (drv_commit drv c)
  | None => raise (AttributeError_None "commit")
  end.

Definition connection_close (c : option Conn) : M State unit :=
  match c with
  | Some c => invoke (CallClose c) (drv_close drv c)
  | None => raise (AttributeError_None "close")
  end.

Definition cursor_execute (cur : Cursor) (query : string) : M State unit :=
  invoke (CallExecute cur query) (drv_execute drv cur query).

Definition cursor_fetchall (cur : Cursor) : M State (list Row) :=
  invoke (CallFetchall cur) (drv_fetchall drv cur).

Definition cursor_close (cur : Cursor) : M State unit :=
  invoke (CallCursorClose cur) (drv_cursor_close drv cur).

(** [for x in cursor.description]: iterating [None] raises. *)
Definition iter_description (cur : Cursor) : M State (list ColumnDesc) :=
  λ s, match drv_description drv cur (dstate s.2) with
       | Some desc => (Return desc, s)
       | None => (Raise (Exn "TypeError" "'NoneType' object is not iterable"), s)
       end.

(** *** [__init__] *)

Definition optional_parameters : list string :=
  ["max_retries"; "autocommit"; "auth"; "authentication";
   "avatica_user"; "avatica_password"; "user"; "password"].

(** The loop over [optional_parameters]: it writes into the caller's
    dictionary. *)
Fixpoint fill_parameters (parameters : list string) (d : loc) : M (World D) unit :=
  match parameters with
  | [] => mret tt
  | parameter :: rest =>
      present ← dict_contains d parameter;
      (if negb present then dict_setitem d parameter PNone else mret tt);;
      fill_parameters rest d
  end.

(** [PhoenixHandler(name, connection_data)].  [connection_data] is
    [Optional[dict]]: with [None] the membership test raises. *)
Definition __init__ (name : string) (connection_data : option loc) : M (World D) Handler :=
  match connection_data with
  | None => raise (Exn "TypeError" "argument of type 'NoneType' is not iterable")
  | Some d =>
      fill_parameters optional_parameters d;;
      mret (mkHandler name "phoenix" d None false)
  end.

(** *** [connect] *)

Definition connect : M State (option Conn) :=
  connected ← self is_connected;
  if (connected : bool) then self connection
  else
    d ← self connection_data;
    url ← in_world (dict_getitem d "url");
    max_retries ← in_world (dict_getitem d "max_retries");
    autocommit ← in_world (dict_getitem d "autocommit");
    auth ← in_world (dict_getitem d "auth");
    authentication ← in_world (dict_getitem d "authentication");
    avatica_user ← in_world (dict_getitem d "avatica_user");
    avatica_password ← in_world (dict_getitem d "avatica_password");
    user ← in_world (dict_getitem d "user");
    password ← in_world (dict_getitem d "password");
    let args := mkConnectArgs url max_retries autocommit auth authentication
                              avatica_user avatica_password user password in
    c ← invoke (CallConnect args) (drv_connect drv args);
    self_set (set_connection (Some c));;
    self_set (set_is_connected true);;
    self connection.

(** *** [disconnect]

    The result is a Python value: the early [return] gives [None], the
    last line gives the flag. *)
Definition disconnect : M State pyval :=
  connected ← self is_connected;
  if negb connected then mret PNone
  else
    c ← self connection;
    connection_close c;;
    self_set (set_is_connected false);;
    b ← self is_connected;
    mret (PBool b).

(** [__del__] *)
Definition __del__ : M State unit :=
  connected ← self is_connected;
  if (connected : bool) then disconnect;; mret tt else mret tt.

(** *** [check_connection]

    The [except] clause catches every exception of [connect] and its own
    suite (a log call and an attribute assignment) raises none, so the
    [finally] suite always runs after a normal completion and is sequenced
    after the [try] statement.  [response] is the local object that the
    three suites update. *)
Definition check_connection : M State StatusResponse :=
  let response := mkStatusResponse false None in
  connected ← self is_connected;
  let need_to_close := negb connected in
  response ← try_except
    (connect;;
     mret (set_success true response))
    (λ e,
     log_error ("Error connecting to the Phoenix Query Server, " +:+ exn_str e +:+ "!");;
     mret (set_status_error_message (Some (exn_str e)) response));
  (if success response && need_to_close then disconnect;; mret tt else mret tt);;
  connected ← self is_connected;
  (if negb (success response) && connected
   then self_set (set_is_connected false) else mret tt);;
  mret response.

(** *** [native_query] *)
Definition native_query (query : string) : M State Response :=
  connected ← self is_connected;
  let need_to_close := negb connected in
  connection ← connect;
  cursor ← connection_cursor connection;
  response ← try_except
    (cursor_execute cursor query;;
     result ← cursor_fetchall cursor;
     if bool_decide (result ≠ []) then
       description ← iter_description cursor;
       df ← pd_DataFrame result (cd_name <$> description);
       mret (mkResponse TABLE (Some df) None)
     else
       connection_commit connection;;
       mret (mkResponse OK None None))
    (λ e,
     log_error ("Error running query: " +:+ query +:+ " on the Phoenix Query Server!");;
     mret (mkResponse ERROR None (Some (exn_str e))));
  cursor_close cursor;;
  (if need_to_close then disconnect;; mret tt else mret tt);;
  mret response.

(** *** [query]

    The renderer is an external collaborator:
    [get_string ast with_failback] stands for
    [SqlalchemyRender(PhoenixDialect).get_string(ast, with_failback=...)]. *)
Definition query {ASTNode : Type} (get_string : ASTNode → bool → outcome string)
    (ast : ASTNode) : M State Response :=
  query_str ← (λ s, (get_string ast true, s));
  native_query query_str.

(** *** [get_tables] *)
Definition catalog_query : string :=
  newline +:+ "            SELECT DISTINCT TABLE_NAME, TABLE_SCHEM FROM SYSTEM.CATALOG"
  +:+ newline +:+ "        ".

Definition get_tables : M State Response :=
  result ← native_query catalog_query;
  match data_frame result with
  | None => raise (Exn "TypeError" "'NoneType' object is not subscriptable")
  | Some df =>
      schem ← df_getitem df "TABLE_SCHEM";
      let df := df_select df (series_ne schem (PStr "SYSTEM")) in
      df ← df_drop df "TABLE_SCHEM";
      first ← df_columns_getitem df 0;
      mret (set_data_frame (Some (df_rename df first "table_name")) result)
  end.

(** *** [get_columns]

    The assignment of [query] is the first statement of the [try] suite in
    the source; building the text raises nothing. *)
Definition get_columns (table_name : string) : M State Response :=
  connected ← self is_connected;
  let need_to_close := negb connected in
  connection ← connect;
  cursor ← connection_cursor connection;
  let query := "SELECT * from " +:+ table_name +:+ " LIMIT 5" in
  response ← try_except
    (cursor_execute cursor query;;
     cursor_fetchall cursor;;
     description ← iter_description cursor;
     df ← pd_DataFrame ((λ x, [PStr (cd_name x); PStr (cd_type_code x)]) <$> description)
                       ["column_name"; "data_type"];
     mret (mkResponse TABLE (Some df) None))
    (λ e,
     log_error ("Error running query: " +:+ query +:+ " on the Phoenix Query Server!");;
     mret (mkResponse ERROR None (Some (exn_str e))));
  cursor_close cursor;;
  (if need_to_close then disconnect;; mret tt else mret tt);;
  mret response.

End WithDriver.

(** *** [connection_args] and [connection_args_example]

    Modelled from the spec: [HANDLER_CONNECTION_ARG_TYPE] of
    mindsdb.integrations.libs.const is not among the sources; the members
    are those this file names.  The two [OrderedDict]s are association lists
    in the order of the source. *)
Inductive ARG_TYPE := STR | INT | BOOL.

Record ArgSpec := mkArgSpec {
  arg_type : ARG_TYPE;
  arg_description : string
}.

Definition connection_args : list (string * ArgSpec) :=
  [("url", mkArgSpec STR "The URL to the Phoenix Query Server.");
   ("max_retries",
    mkArgSpec INT "The maximum number of retries in case there is a connection error.");
   ("autocommit",
    mkArgSpec BOOL "The flag for switching the connection to autocommit mode.");
   ("auth",
    mkArgSpec STR "An authentication configuration object as expected by the underlying python_requests and python_requests_gssapi library.");
   ("authentication",
    mkArgSpec STR "An alternative way to specify the authentication mechanism that mimics the semantics of the JDBC drirver.");
   ("avatica_user",
    mkArgSpec STR "The username for BASIC or DIGEST authentication. Use in conjunction with the authentication option.");
   ("avatica_password",
    mkArgSpec STR "The password for BASIC or DIGEST authentication. Use in conjunction with the authentication option.");
   ("user",
    mkArgSpec STR "If authentication is BASIC or DIGEST then alias for avatica_user. If authentication is NONE or SPNEGO then alias for do_as");
   ("password",
    mkArgSpec STR "If authentication is BASIC or DIGEST then alias for avatica_password.")].

Definition connection_args_example : list (string * pyval) :=
  [("url", PStr "http://127.0.0.1:8765"); ("autocommit", PBool true)].

End PhoenixHandler.

Import PhoenixHandler.

(** ** Vocabulary of the statements *)

(** The keyword arguments that [connect] reads from a configuration, when
    all nine keys are present. *)
Definition lookup_args (cfg : dict) : option ConnectArgs :=
  url ← cfg !! "url";
  max_retries ← cfg !! "max_retries";
  autocommit ← cfg !! "autocommit";
  auth ← cfg !! "auth";
  authentication ← cfg !! "authentication";
  avatica_user ← cfg !! "avatica_user";
  avatica_password ← cfg !! "avatica_password";
  user ← cfg !! "user";
  password ← cfg !! "password";
  Some (mkConnectArgs url max_retries autocommit auth authentication
                      avatica_user avatica_password user password).

Definition is_commit (c : Call) : bool :=
  match c with CallCommit _ => true | _ => false end.

Definition is_cursor_close (c : Call) : bool :=
  match c with CallCursorClose _ => true | _ => false end.

(** Number of calls of a kind. *)
Definition count_calls (kind : Call → bool) (l : list Call) : nat :=
  length (filter (λ c, kind c = true) l).

(** The world after a driver call [c] that left the driver in state [d]. *)
Definition after_call {D} (c : Call) (d : D) (w : World D) : World D :=
  mkWorld (heap w) d (calls w ++ [c]) (errlog w).

(** The calls that close what [native_query] and [get_columns] acquired:
    the cursor, and the connection when the call opened it. *)
Definition release_calls (was_connected : bool) (conn : Conn) (cur : Cursor) : list Call :=
  CallCursorClose cur :: (if was_connected then [] else [CallClose conn]).

(** The statement run by [native_query] raises [e] in [execute], in
    [fetchall], or in [commit] (reached when no row was fetched); the
    driver is left in state [d'] after the calls [cs]. *)
Inductive execution_raises {D} (drv : Driver D) (conn : Conn) (cur : Cursor)
    (q : string) (d : D) (e : exn) : D → list Call → Prop :=
| execute_raises d' :
    drv_execute drv cur q d = (Raise e, d') →
    execution_raises drv conn cur q d e d' [CallExecute cur q]
| fetchall_raises d1 d' :
    drv_execute drv cur q d = (Return tt, d1) →
    drv_fetchall drv cur d1 = (Raise e, d') →
    execution_raises drv conn cur q d e d' [CallExecute cur q; CallFetchall cur]
| commit_raises d1 d2 d' :
    drv_execute drv cur q d = (Return tt, d1) →
    drv_fetchall drv cur d1 = (Return [], d2) →
    drv_commit drv conn d2 = (Raise e, d') →
    execution_raises drv conn cur q d e d'
      [CallExecute cur q; CallFetchall cur; CallCommit conn].

(** The rows of [get_tables] for catalog rows (table, schema): the table
    of every row whose schema is not the string SYSTEM, in the order of the
    catalog rows. *)
Definition table_names (catalog : list Row) : list Row :=
  flat_map (λ r : Row,
              match r with
              | [table; schem] => if decide (schem = PStr "SYSTEM") then [] else [[table]]
              | _ => []
              end) catalog.

(** The rows of [get_columns] for a description. *)
Definition column_rows (desc : list ColumnDesc) : list Row :=
  (λ x, [PStr (cd_name x); PStr (cd_type_code x)]) <$> desc.

(** The kinds of cell. *)
Definition is_none (v : pyval) : bool := match v with PNone => true | _ => false end.

Definition is_bool (v : pyval) : bool := match v with PBool _ => true | _ => false end.

Definition is_int (v : pyval) : bool := match v with PInt _ => true | _ => false end.

Definition is_float (v : pyval) : bool := match v with PFloat _ => true | _ => false end.

Definition is_str (v : pyval) : bool := match v with PStr _ => true | _ => false end.

(** A column that a frame holds as doubles: it has no string and no
    boolean, and it has a double, or an integer next to a [None]. *)
Definition float_column (col : list pyval) : bool :=
  negb (existsb is_str col) && negb (existsb is_bool col)
  && (existsb is_float col || existsb is_none col && existsb is_int col).

Definition dtype (col : list pyval) : list pyval :=
  if float_column col then as_float <$> col else col.

(** The rows of the frame made from [rows]: the same rows, cell by cell,
    where a cell in a column of doubles is the double of the cell. *)
Definition as_dtypes (rows : list Row) : list Row :=
  (λ r, imap (λ j v, if float_column (column j rows) then as_float v else v) r) <$> rows.

(** An integer cell fits a signed 64-bit integer, as the values of the
    integer types of Phoenix do. *)
Definition int64_cell (v : pyval) : Prop :=
  match v with PInt z => (INT64_MIN ≤ z ≤ INT64_MAX)%Z | _ => True end.

#[global] Instance int64_cell_dec (v : pyval) : Decision (int64_cell v).
Proof. destruct v; apply _. Defined.

(** Every value that [m] returns satisfies [P]. *)
Definition returns_only {S A} (P : A → Prop) (m : M S A) : Prop :=
  ∀ s a s', m s = (Return a, s') → P a.

(** [m] leaves every dictionary of the store as it is, however it ends. *)
Definition keeps_heap {D A} (m : M (@State D) A) : Prop :=
  ∀ s r s', m s = (r, s') → heap s'.2 = heap s.2.

Create HintDb frame discriminated.

(** The configuration after the loop over [parameters]. *)
Definition filled (parameters : list string) (cfg : dict) : dict :=
  foldl (λ c parameter, if bool_decide (is_Some (c !! parameter))
                        then c else <[parameter := PNone]> c)
        cfg parameters.

(** *** Vocabulary of the further properties *)

(** The fields of a handler agree with each other: a handler that is
    marked connected holds a connection object. *)
Definition consistent (h : Handler) : Prop :=
  is_connected h = true → is_Some (connection h).

(** What no method changes: the name, the dialect and the reference to
    the configuration; and consistency is kept. *)
Definition evolves (h h' : Handler) : Prop :=
  name h' = name h ∧ dialect h' = dialect h ∧
  connection_data h' = connection_data h ∧
  (consistent h → consistent h').

(** However [m] ends, the states before and after it are related by [R]. *)
Definition run_rel {D A} (R : relation (@State D)) (m : M State A) : Prop :=
  ∀ s o s', m s = (o, s') → R s s'.

Definition handler_evolves {D} (s s' : @State D) : Prop := evolves s.1 s'.1.

(** Driver calls were added, if any, and all of them are of kind [kind]. *)
Definition adds_calls {D} (kind : Call → bool) (s s' : @State D) : Prop :=
  ∃ cs, calls s'.2 = calls s.2 ++ cs ∧ Forall (λ c, kind c = true) cs.

Create HintDb run discriminated.

Definition is_connect (c : Call) : bool :=
  match c with CallConnect _ => true | _ => false end.

Definition is_close (c : Call) : bool :=
  match c with CallClose _ => true | _ => false end.

Definition is_cursor (c : Call) : bool :=
  match c with CallCursor _ => true | _ => false end.

(** A call that sends or reads a statement: [execute], [fetchall] or
    [commit]. *)
Definition is_statement (c : Call) : bool :=
  match c with
  | CallExecute _ _ | CallFetchall _ | CallCommit _ => true
  | _ => false
  end.

(** The driver raised [e] in the call [c], a call that acquires or
    releases a cursor or closes a connection. *)
Definition raised_by {D} (drv : Driver D) (e : exn) (c : Call) : Prop :=
  match c with
  | CallCursor conn => ∃ d d', drv_cursor drv conn d = (Raise e, d')
  | CallCursorClose cur => ∃ d d', drv_cursor_close drv cur d = (Raise e, d')
  | CallClose conn => ∃ d d', drv_close drv conn d = (Raise e, d')
  | _ => False
  end.

(** The message that [native_query] and [get_columns] log for a failed
    query. *)
Definition query_error_message (q : string) : string :=
  "Error running query: " +:+ q +:+ " on the Phoenix Query Server!".

(** The keyword arguments for a configuration with the URL [url]: every
    other parameter is the configured value, [None] without one. *)
Definition args_with_defaults (url : pyval) (cfg : dict) : ConnectArgs :=
  mkConnectArgs url
    (default PNone (cfg !! "max_retries")) (default PNone (cfg !! "autocommit"))
    (default PNone (cfg !! "auth")) (default PNone (cfg !! "authentication"))
    (default PNone (cfg !! "avatica_user")) (default PNone (cfg !! "avatica_password"))
    (default PNone (cfg !! "user")) (default PNone (cfg !! "password")).

(** ** A scripted driver

    A driver without state whose answers are fixed in advance, as a test
    double would be. *)
Module Fake.

Record Script := mkScript {
  on_connect : outcome Conn;
  on_cursor : outcome Cursor;
  on_execute : string → outcome unit;
  on_fetchall : outcome (list Row);
  description : option (list ColumnDesc);
  on_commit : outcome unit;
  on_cursor_close : outcome unit;
  on_close : outcome unit
}.

Definition driver (sc : Script) : Driver unit :=
  mkDriver unit
    (λ _ d, (on_connect sc, d))
    (λ _ d, (on_cursor sc, d))
    (λ _ q d, (on_execute sc q, d))
    (λ _ d, (on_fetchall sc, d))
    (λ _ _, description sc)
    (λ _ d, (on_commit sc, d))
    (λ _ d, (on_cursor_close sc, d))
    (λ _ d, (on_close sc, d)).

(** A server that answers every statement with two rows of two columns. *)
Definition serving : Script :=
  mkScript (Return 7) (Return 3) (λ _, Return tt)
           (Return [[PInt 1; PStr "a"]; [PInt 2; PStr "b"]])
           (Some [mkColumnDesc "id" "INTEGER";
                  mkColumnDesc "name" "VARCHAR"])
           (Return tt) (Return tt) (Return tt).


(** The same server when the statement yields no row. *)
Definition updating : Script :=
  mkScript (Return 7) (Return 3) (λ _, Return tt) (Return []) None
           (Return tt) (Return tt) (Return tt).

(** A server that rejects every statement. *)
Definition rejecting : Script :=
  mkScript (Return 7) (Return 3)
           (λ _, Raise (Exn "ProgrammingError" "Table undefined"))
           (Return []) None (Return tt) (Return tt) (Return tt).

(** A server that answers with the rows of its catalog. *)
Definition catalog : Script :=
  mkScript (Return 7) (Return 3) (λ _, Return tt)
           (Return [[PStr "T1"; PStr "SYSTEM"]; [PStr "T2"; PStr "APP"]])
           (Some [mkColumnDesc "TABLE_NAME" "VARCHAR";
                  mkColumnDesc "TABLE_SCHEM" "VARCHAR"])
           (Return tt) (Return tt) (Return tt).

(** A server whose connections cannot be closed. *)
Definition stuck : Script :=
  mkScript (Return 7) (Return 3) (λ _, Return tt)
           (Return [[PInt 1; PStr "a"]; [PInt 2; PStr "b"]])
           (Some [mkColumnDesc "id" "INTEGER";
                  mkColumnDesc "name" "VARCHAR"])
           (Return tt) (Return tt)
           (Raise (Exn "OperationalError" "Broken pipe")).

(** A server that hands out no cursor. *)
Definition cursorless : Script :=
  mkScript (Return 7) (Raise (Exn "ProgrammingError" "the connection is already closed"))
           (λ _, Return tt) (Return []) None (Return tt) (Return tt) (Return tt).

(** A configuration without URL, at location 0 of the store. *)
Definition world_without_url : World unit :=
  mkWorld (<[0 := {[ "autocommit" := PBool true ]}]> (λ _, ∅)) tt [] [].

(** No server is listening. *)
Definition unreachable : Script :=
  mkScript (Raise (Exn "ConnectionError" "Connection refused"))
           (Return 3) (λ _, Return tt) (Return []) None
           (Return tt) (Return tt) (Return tt).

(** The caller's configuration, the one of [connection_args_example],
    at location 0 of the store. *)
Definition example_config : dict :=
  {[ "url" := PStr "http://127.0.0.1:8765"; "autocommit" := PBool true ]}.

Definition world0 : World unit :=
  mkWorld (<[0 := example_config]> (λ _, ∅)) tt [] [].

(** The construction of a handler on that configuration. *)
Definition constructed : outcome Handler * World unit :=
  __init__ "phoenix_datasource" (Some 0) world0.

(** The configuration once [__init__] has run. *)
Definition filled_config : dict :=
  <["password" := PNone]> (<["user" := PNone]> (<["avatica_password" := PNone]>
  (<["avatica_user" := PNone]> (<["authentication" := PNone]> (<["auth" := PNone]>
  (<["max_retries" := PNone]> example_config)))))).

Definition world1 : World unit :=
  mkWorld (<[0 := filled_config]> (λ _, ∅)) tt [] [].

Definition example_args : ConnectArgs :=
  mkConnectArgs (PStr "http://127.0.0.1:8765") PNone (PBool true)
                PNone PNone PNone PNone PNone PNone.

(** A handler that was constructed and never connected, and the same
    handler holding the open connection 7. *)
Definition fresh : Handler := mkHandler "phoenix_datasource" "phoenix" 0 None false.

Definition live : Handler := mkHandler "phoenix_datasource" "phoenix" 0 (Some 7) true.

(** The handler of the examples once it has connected to the scripted
    driver, and the world at that point. *)
Definition connected_fresh : Handler :=
  set_is_connected true (set_connection (Some 7) fresh).

Definition world_connected : World unit :=
  after_call (CallConnect example_args) tt world1.

(** Runs of the methods on the handler of the examples. *)
Definition served : outcome Response * (Handler * World unit) :=
  native_query (driver serving) "SELECT id, name FROM t" (fresh, world1).


Definition rejected : outcome Response * (Handler * World unit) :=
  native_query (driver rejecting) "SELECT * FROM missing" (fresh, world1).

Definition refused : outcome Response * (Handler * World unit) :=
  native_query (driver cursorless) "SELECT 1" (fresh, world1).

Definition described : outcome Response * (Handler * World unit) :=
  get_columns (driver serving) "foo" (fresh, world1).

Definition undescribed : outcome Response * (Handler * World unit) :=
  get_columns (driver cursorless) "foo" (fresh, world1).

Definition listed : outcome Response * (Handler * World unit) :=
  get_tables (driver catalog) (fresh, world1).

Definition probed_stuck : outcome StatusResponse * (Handler * World unit) :=
  check_connection (driver stuck) (fresh, world1).

End Fake.

(** ** Running monadic code *)

Ltac py_unfold :=
  cbv beta iota zeta delta
    [mbind M_bind mret M_ret raise gets modify try_except zoom
     self self_set in_world invoke log_error
     connection_cursor connection_commit connection_close
     cursor_execute cursor_fetchall cursor_close iter_description
     dict_getitem dict_contains dict_setitem set_heap];
  cbn [fst snd dstate heap calls errlog after_call negb andb
       is_connected connection connection_data set_is_connected set_connection
       success status_error_message set_success set_status_error_message
       resp_type data_frame error_message set_data_frame].

(** Two runs agree up to the bracketing of the recorded calls. *)
Ltac same_world :=
  repeat match goal with x := _ |- _ => subst x end;
  cbn [after_call calls heap errlog dstate];
  rewrite <-?(assoc_L (++)); cbn [app].

Section Lifecycle.
Context {D : Type} (drv : Driver D).

Lemma connect_connected (h : Handler) (w : World D) :
  is_connected h = true →
  connect drv (h, w) = (Return (connection h), (h, w)).
Proof.
  intros Hc. unfold connect. py_unfold. rewrite Hc. py_unfold. by destruct w.
Qed.

Lemma connect_fresh (h : Handler) (w : World D) args :
  is_connected h = false →
  lookup_args (heap w (connection_data h)) = Some args →
  connect drv (h, w) =
    match drv_connect drv args (dstate w) with
    | (Return c, d) =>
        (Return (Some c),
         (set_is_connected true (set_connection (Some c) h),
          after_call (CallConnect args) d w))
    | (Raise e, d) => (Raise e, (h, after_call (CallConnect args) d w))
    end.
Proof.
  intros Hc Hargs. unfold connect. py_unfold. rewrite Hc.
  unfold lookup_args in Hargs.
  repeat match type of Hargs with
         | context [?cfg !! ?k] => destruct (cfg !! k) eqn:?; simpl in Hargs; [|done]
         end.
  injection Hargs as <-.
  destruct w as [hp d cs lg]; simpl in *.
  repeat match goal with
         | H : hp _ !! _ = Some _ |- _ => rewrite H; clear H; py_unfold
         end.
  destruct (drv_connect _ _ _) as [[c|e] d']; done.
Qed.

Lemma connect_missing_key (h : Handler) (w : World D) :
  is_connected h = false →
  lookup_args (heap w (connection_data h)) = None →
  ∃ key, connect drv (h, w) = (Raise (Exn "KeyError" ("'" +:+ key +:+ "'")), (h, w)).
Proof.
  intros Hc Hargs. unfold connect. py_unfold. rewrite Hc.
  unfold lookup_args in Hargs. destruct w as [hp d cs lg]; simpl in *.
  repeat match type of Hargs with
         | context [?cfg !! ?k] =>
             destruct (cfg !! k) eqn:?; simpl in Hargs; py_unfold; [|by eexists]
         end.
  done.
Qed.

(** What a returning [connect] has done: nothing when the handler was
    connected, one successful driver call otherwise. *)
Lemma connect_inv_Return (h h1 : Handler) (w w1 : World D) oc :
  connect drv (h, w) = (Return oc, (h1, w1)) →
  connection h1 = oc ∧ is_connected h1 = true ∧
  ((is_connected h = true ∧ h1 = h ∧ w1 = w) ∨
   (is_connected h = false ∧ ∃ args c d,
      lookup_args (heap w (connection_data h)) = Some args ∧
      drv_connect drv args (dstate w) = (Return c, d) ∧
      oc = Some c ∧
      h1 = set_is_connected true (set_connection (Some c) h) ∧
      w1 = after_call (CallConnect args) d w)).
Proof.
  intros Hrun. destruct (is_connected h) eqn:Hc.
  - rewrite connect_connected in Hrun by done. injection Hrun as <- <- <-.
    split_and!; [done..|]. by left.
  - destruct (lookup_args (heap w (connection_data h))) as [args|] eqn:Hargs.
    + rewrite (connect_fresh _ _ args) in Hrun by done.
      destruct (drv_connect drv args (dstate w)) as [[c|e] d] eqn:Hopen; [|done].
      injection Hrun as <- <- <-. split_and!; [done..|].
      right. split; [done|]. by exists args, c, d.
    + destruct (connect_missing_key h w) as [key Hkey]; [done..|]. congruence.
Qed.

(** A raising [connect] found the handler disconnected and leaves its
    fields as they were. *)
Lemma connect_inv_Raise (h h1 : Handler) (w w1 : World D) e :
  connect drv (h, w) = (Raise e, (h1, w1)) →
  is_connected h = false ∧ h1 = h ∧ heap w1 = heap w ∧ errlog w1 = errlog w.
Proof.
  intros Hrun. destruct (is_connected h) eqn:Hc.
  - by rewrite connect_connected in Hrun.
  - destruct (lookup_args (heap w (connection_data h))) as [args|] eqn:Hargs.
    + rewrite (connect_fresh _ _ args) in Hrun by done.
      destruct (drv_connect drv args (dstate w)) as [[c|e'] d] eqn:Hopen; [done|].
      by injection Hrun as <- <- <-.
    + destruct (connect_missing_key h w) as [key Hkey]; [done..|].
      rewrite Hkey in Hrun. by injection Hrun as <- <- <-.
Qed.

(** [disconnect] on a connected handler whose connection closes. *)
Lemma disconnect_connected (h : Handler) (w : World D) c d :
  is_connected h = true →
  connection h = Some c →
  drv_close drv c (dstate w) = (Return tt, d) →
  disconnect drv (h, w) =
    (Return (PBool false), (set_is_connected false h, after_call (CallClose c) d w)).
Proof.
  intros Hc Hconn Hclose. unfold disconnect. py_unfold. rewrite Hc. py_unfold.
  rewrite Hconn. py_unfold. rewrite Hclose. by py_unfold.
Qed.

(** C8 (the part the code misses).  [disconnect] on a handler that is not
    connected changes nothing and makes no driver call, and its early
    [return] yields [None]: not the boolean flag that the last line of the
    method returns on the other path. *)
Theorem disconnect_not_connected (h : Handler) (w : World D) :
  is_connected h = false →
  disconnect drv (h, w) = (Return PNone, (h, w)).
Proof.
  intros Hc. unfold disconnect. py_unfold. rewrite Hc. by py_unfold.
Qed.

(** Closing a connection and disconnecting again: the first call returns
    the flag [False], the second one [None], and only the first one
    reaches the driver. *)
Lemma disconnect_twice (h : Handler) (w : World D) c d :
  is_connected h = true →
  connection h = Some c →
  drv_close drv c (dstate w) = (Return tt, d) →
  ∃ s1, disconnect drv (h, w) = (Return (PBool false), s1) ∧
        disconnect drv s1 = (Return PNone, s1) ∧
        calls s1.2 = calls w ++ [CallClose c].
Proof.
  intros Hc Hconn Hclose. eexists. split; [by apply disconnect_connected|].
  split; [|done]. unfold disconnect. by py_unfold.
Qed.

(** C3.  A successful probe restores the connection state it found.  The
    probe succeeds when [connect] returns a connection and, where the probe
    opened it, the driver closes it again.  A handler that was disconnected
    is disconnected afterwards, the connection of the probe closed; a
    handler that was connected is left as it was, fields and world, without
    any driver call. *)
Theorem check_connection_restores_state (h h1 : Handler) (w w1 : World D) c d2 :
  connect drv (h, w) = (Return (Some c), (h1, w1)) →
  (is_connected h = false → drv_close drv c (dstate w1) = (Return tt, d2)) →
  ∃ h' w',
    check_connection drv (h, w) = (Return (mkStatusResponse true None), (h', w')) ∧
    is_connected h' = is_connected h ∧
    (is_connected h = true → h' = h ∧ w' = w ∧ connection h' = Some c) ∧
    (is_connected h = false →
       connection h' = Some c ∧ w' = after_call (CallClose c) d2 w1).
Proof.
  intros Hrun Hclose.
  destruct (connect_inv_Return _ _ _ _ _ Hrun) as (Hconn & Hflag & Hcase).
  unfold check_connection. py_unfold. rewrite Hrun. py_unfold.
  destruct Hcase as [(Hc & -> & ->)|(Hc & _)]; rewrite Hc; py_unfold.
  - exists h, w. rewrite Hc. py_unfold. by destruct w.
  - rewrite (disconnect_connected h1 w1 c d2) by auto. py_unfold.
    exists (set_is_connected false h1), (after_call (CallClose c) d2 w1).
    split_and!; [done..|congruence|done].
Qed.

(** C4.  When the [connect] of the probe raises, [check_connection] returns
    a failed status that carries the text of the exception, and the handler
    is marked disconnected whatever the flag was when [connect] gave up. *)
Theorem check_connection_reports_failure (h h1 : Handler) (w w1 : World D) e :
  connect drv (h, w) = (Raise e, (h1, w1)) →
  ∃ h' w',
    check_connection drv (h, w)
      = (Return (mkStatusResponse false (Some (exn_str e))), (h', w')) ∧
    is_connected h' = false ∧
    connection h' = connection h1 ∧
    calls w' = calls w1 ∧
    errlog w' = errlog w1 ++
      ["Error connecting to the Phoenix Query Server, " +:+ exn_str e +:+ "!"].
Proof.
  intros Hrun. unfold check_connection. py_unfold. rewrite Hrun. py_unfold.
  destruct (is_connected h1) eqn:Hc1; py_unfold; eauto 10.
Qed.

(** A raising [connect] is the only way for the probe to fail, and it can
    raise only on a handler that is marked disconnected. *)
Lemma check_connection_failure_inv (h h' : Handler) (w w' : World D) r :
  check_connection drv (h, w) = (Return r, (h', w')) →
  success r = false →
  is_connected h = false ∧ ∃ e s1, connect drv (h, w) = (Raise e, s1).
Proof.
  unfold check_connection. py_unfold.
  destruct (connect drv (h, w)) as [[oc|e] [h1 w1]] eqn:Hrun; py_unfold.
  - destruct (negb (is_connected h)); py_unfold;
      [destruct (disconnect drv (h1, w1)) as [[v|e] s2]; py_unfold|];
      intros Heq Hs; by simplify_eq/=.
  - intros _ _. destruct (connect_inv_Raise _ _ _ _ _ Hrun) as (Hc & _).
    eauto.
Qed.

End Lifecycle.

Lemma disconnect_not_connected_witness :
  disconnect (Fake.driver Fake.serving) (Fake.fresh, Fake.world1)
  = (Return PNone, (Fake.fresh, Fake.world1)).
Proof. apply disconnect_not_connected. reflexivity. Defined.

Lemma check_connection_restores_state_witness :
  ∃ h' w',
    check_connection (Fake.driver Fake.serving) (Fake.fresh, Fake.world1)
      = (Return (mkStatusResponse true None), (h', w')) ∧
    is_connected h' = false ∧
    (false = true → h' = Fake.fresh ∧ w' = Fake.world1 ∧ connection h' = Some 7) ∧
    (false = false →
       connection h' = Some 7 ∧
       w' = after_call (CallClose 7) tt Fake.world_connected).
Proof.
  apply (check_connection_restores_state (Fake.driver Fake.serving)
           Fake.fresh Fake.connected_fresh Fake.world1 Fake.world_connected 7 tt).
  - reflexivity.
  - intros _. reflexivity.
Defined.

Lemma check_connection_reports_failure_witness :
  ∃ h' w',
    check_connection (Fake.driver Fake.unreachable) (Fake.fresh, Fake.world1)
      = (Return (mkStatusResponse false (Some "Connection refused")), (h', w')) ∧
    is_connected h' = false ∧
    connection h' = None ∧
    calls w' = [CallConnect Fake.example_args] ∧
    errlog w' =
      [] ++ ["Error connecting to the Phoenix Query Server, " +:+ "Connection refused" +:+ "!"].
Proof.
  apply (check_connection_reports_failure (Fake.driver Fake.unreachable)
           Fake.fresh Fake.fresh Fake.world1
           (after_call (CallConnect Fake.example_args) tt Fake.world1)
           (Exn "ConnectionError" "Connection refused")).
  reflexivity.
Defined.

(** ** Frames built from well-formed rows *)

Lemma max_list_constant (n : nat) (l : list nat) :
  l ≠ [] → Forall (λ x, x = n) l → max_list l = n.
Proof.
  intros Hne Hall. induction Hall as [|x l -> Hall IH]; [done|].
  destruct l as [|y l]; simpl in *; [lia|].
  rewrite IH by done. lia.
Qed.

Lemma pad_full_row (k : nat) (r : Row) : length r = k → pad k r = r.
Proof. intros <-. unfold pad. by rewrite Nat.sub_diag, app_nil_r. Qed.

Lemma pad_full_rows (k : nat) (rows : list Row) :
  Forall (λ r : Row, length r = k) rows → pad k <$> rows = rows.
Proof.
  induction 1 as [|r rows Hr _ IH]; [done|].
  csimpl. by rewrite pad_full_row, IH.
Qed.

(** *** The types that [pd.DataFrame] infers

    On cells whose integers fit 64 bits the walk over a column meets no
    cell that stops it but a string, and the column becomes a column of
    doubles exactly when [float_column] says so. *)
Lemma scan_int64 (col : list pyval) (seen : Seen) :
  Forall int64_cell col →
  uint_ seen = false →
  ∃ seen',
    scan col seen = Return seen' ∧
    uint_ seen' = false ∧
    object_ seen' || bool_ seen'
      = object_ seen || bool_ seen || existsb is_str col || existsb is_bool col ∧
    (object_ seen' || bool_ seen' = false →
     float_ seen' || nan_ seen' = float_ seen || nan_ seen || existsb is_float col ∧
     null_ seen' = null_ seen || existsb is_none col ∧
     int_ seen' = int_ seen || existsb is_int col).
Proof.
  intros Hcol. revert seen. induction Hcol as [|v col Hv _ IH]; intros seen Hu.
  - exists seen. cbn. rewrite !orb_false_r. done.
  - destruct v as [|b|z|f|s]; cbn [scan].
    + destruct (IH (see_null seen) Hu) as (seen' & -> & Hu' & Ho & Hrest).
      exists seen'. split_and!; [done..| |].
      * rewrite Ho. destruct seen; cbn; by rewrite ?orb_true_r, ?orb_false_r.
      * intros H0. destruct (Hrest H0) as (-> & -> & ->). destruct seen; cbn; by rewrite ?orb_true_r, ?orb_false_r.
    + destruct (IH (see_bool seen) Hu) as (seen' & -> & Hu' & Ho & Hrest).
      exists seen'. split_and!; [done..| |].
      * rewrite Ho. cbn. by rewrite !orb_true_r.
      * intros H0. rewrite Ho in H0. cbn in H0. rewrite ?orb_true_r in H0. done.
    + cbn in Hv. unfold INT64_MIN, INT64_MAX in Hv.
      rewrite decide_True by lia.
      assert (uint_ (saw_int z (see_int seen)) = false) as Hu2.
      { cbn. rewrite Hu. cbn. apply bool_decide_eq_false. unfold INT64_MAX. lia. }
      assert (scan (PInt z :: col) seen = scan col (see_int seen) ∨
              scan (PInt z :: col) seen = scan col (saw_int z (see_int seen))) as Hscan.
      { cbn [scan]. rewrite decide_True by lia. cbv zeta.
        destruct (null_ (see_int seen)); [by left|right].
        rewrite Hu2. cbn [andb orb].
        rewrite !bool_decide_eq_false_2 by (unfold UINT64_MAX, INT64_MIN; lia). done. }
      cbn [scan] in Hscan. rewrite decide_True in Hscan by lia. cbv zeta in Hscan.
      destruct Hscan as [-> | ->].
      * destruct (IH (see_int seen) Hu) as (seen' & -> & Hu' & Ho & Hrest).
        exists seen'. split_and!; [done..| |].
        -- rewrite Ho. destruct seen; cbn; by rewrite ?orb_true_r, ?orb_false_r.
        -- intros H0. destruct (Hrest H0) as (-> & -> & ->). destruct seen; cbn; by rewrite ?orb_true_r, ?orb_false_r.
      * destruct (IH _ Hu2) as (seen' & -> & Hu' & Ho & Hrest).
        exists seen'. split_and!; [done..| |].
        -- rewrite Ho. destruct seen; cbn; by rewrite ?orb_true_r, ?orb_false_r.
        -- intros H0. destruct (Hrest H0) as (-> & -> & ->). destruct seen; cbn; by rewrite ?orb_true_r, ?orb_false_r.
    + assert (∃ seen1, scan (PFloat f :: col) seen = scan col seen1 ∧
                uint_ seen1 = uint_ seen ∧ object_ seen1 = object_ seen ∧
                bool_ seen1 = bool_ seen ∧ null_ seen1 = null_ seen ∧
                int_ seen1 = int_ seen ∧
                float_ seen1 || nan_ seen1 = true) as (seen1 & Hs & E1 & E2 & E3 & E4 & E5 & E6).
      { destruct f; [exists (see_float seen)|exists (see_float seen)
                    |exists (see_nan seen)|exists (see_float seen)];
          cbn; by rewrite ?orb_true_r. }
      cbn [scan] in Hs. rewrite Hs.
      destruct (IH seen1) as (seen' & -> & Hu' & Ho & Hrest); [congruence|].
      exists seen'. split_and!; [done..| |].
      * rewrite Ho, E2, E3. done.
      * intros H0. destruct (Hrest H0) as (-> & -> & ->).
        rewrite E6, E4, E5. cbn. by rewrite !orb_true_r.
    + exists (see_object seen). cbn. by rewrite !orb_true_r.
Qed.

Lemma maybe_convert_objects_int64 (col : list pyval) :
  Forall int64_cell col →
  maybe_convert_objects col = Return (dtype col).
Proof.
  intros Hcol. unfold maybe_convert_objects, dtype, float_column.
  destruct (scan_int64 col no_seen Hcol eq_refl) as (seen & -> & _ & Ho & Hrest).
  cbn in Ho. f_equal.
  destruct (object_ seen || bool_ seen) eqn:Hob.
  - symmetry in Ho. apply orb_true_iff in Ho as [-> | ->]; cbn; by rewrite ?andb_false_r.
  - symmetry in Ho. apply orb_false_iff in Ho as [-> ->].
    destruct (Hrest eq_refl) as (-> & -> & ->). done.
Qed.

Lemma convert_object_array_int64 (content : list (list pyval)) :
  Forall (Forall int64_cell) content →
  convert_object_array content = Return (dtype <$> content).
Proof.
  induction 1 as [|col content Hcol _ IH]; [done|].
  cbn [convert_object_array]. by rewrite maybe_convert_objects_int64, IH.
Qed.

Lemma dtype_fmap (col : list pyval) :
  dtype col = (if float_column col then as_float else id) <$> col.
Proof. unfold dtype. destruct (float_column col); [done|]. by rewrite list_fmap_id. Qed.

Lemma column_int64 (j : nat) (rows : list (list pyval)) :
  Forall (Forall int64_cell) rows → Forall int64_cell (column j rows).
Proof.
  intros Hrows. unfold column. apply Forall_fmap.
  eapply Forall_impl; [done|]. intros r Hr. cbn.
  destruct (r !! j) as [v|] eqn:Hv; [|done].
  by eapply Forall_lookup_1.
Qed.

Lemma transpose_int64 (k : nat) (rows : list (list pyval)) :
  Forall (Forall int64_cell) rows → Forall (Forall int64_cell) (transpose k rows).
Proof.
  intros Hrows. unfold transpose. apply Forall_fmap, Forall_true.
  intros j. by apply column_int64.
Qed.

Lemma lookup_column (j i : nat) (rows : list (list pyval)) :
  column j rows !! i = (λ r, default PNone (r !! j)) <$> rows !! i.
Proof. apply list_lookup_fmap. Qed.

Lemma transpose_dtype (k : nat) (rows : list Row) :
  Forall (λ r : Row, length r = k) rows →
  transpose (length rows) (dtype <$> transpose k rows) = as_dtypes rows.
Proof.
  unfold Row in *. intros Hwide. apply list_eq. intros i.
  unfold transpose at 1, as_dtypes.
  rewrite !list_lookup_fmap.
  destruct (rows !! i) as [r|] eqn:Hr.
  - rewrite lookup_seq_lt by (by eapply lookup_lt_Some). cbn. f_equal.
    assert (length r = k) as Hlen by (by eapply (Forall_lookup_1 _ _ _ _ Hwide)).
    apply list_eq. intros j. unfold column at 1, transpose.
    rewrite !list_lookup_fmap, list_lookup_imap.
    destruct (r !! j) as [v|] eqn:Hv.
    + rewrite lookup_seq_lt by (rewrite <-Hlen; by eapply lookup_lt_Some). cbn.
      rewrite dtype_fmap, list_lookup_fmap, lookup_column, Hr. cbn. rewrite Hv.
      by destruct (float_column _).
    + rewrite lookup_seq_ge; [done|]. rewrite <-Hlen. by apply lookup_ge_None.
  - rewrite lookup_seq_ge; [done|]. by apply lookup_ge_None.
Qed.

(** Columns as [pd.DataFrame] holds them. *)
Example maybe_convert_objects_examples :
  maybe_convert_objects [PInt 1; PNone] = Return [PFloat (float_of_int 1); nan] ∧
  maybe_convert_objects [PInt 1; PInt 2] = Return [PInt 1; PInt 2] ∧
  maybe_convert_objects [PNone; PNone] = Return [PNone; PNone] ∧
  maybe_convert_objects [PBool true; PNone] = Return [PBool true; PNone] ∧
  maybe_convert_objects [PInt 1; PBool true] = Return [PInt 1; PBool true] ∧
  maybe_convert_objects [PStr "a"; PNone] = Return [PStr "a"; PNone] ∧
  maybe_convert_objects [PInt 1; PStr "a"] = Return [PInt 1; PStr "a"].
Proof. by vm_compute. Qed.

(** Rows as wide as the list of labels make a frame of exactly these
    labels and of these rows, with the cells of its columns of doubles
    converted. *)
Lemma pd_DataFrame_conform {S} (rows : list Row) (columns : list string) (s : S) :
  Forall (λ r : Row, length r = length columns) rows →
  Forall (Forall int64_cell) rows →
  pd_DataFrame rows columns s = (Return (mkDataFrame columns (as_dtypes rows)), s).
Proof.
  intros Hall Hint. unfold pd_DataFrame. destruct rows as [|r rows]; [done|].
  rewrite (max_list_constant (length columns)); [|done|by apply Forall_fmap].
  rewrite decide_True by done. rewrite pad_full_rows by done.
  rewrite convert_object_array_int64 by (by apply transpose_int64).
  by rewrite transpose_dtype.
Qed.

Lemma float_column_no_number (col : list pyval) :
  Forall (λ v, is_int v = false ∧ is_float v = false) col → float_column col = false.
Proof.
  intros Hcol. unfold float_column.
  assert (existsb is_int col = false ∧ existsb is_float col = false) as [-> ->].
  { induction Hcol as [|v col [Hi Hf] _ [IHi IHf]]; [done|]. cbn. by rewrite Hi, Hf. }
  cbn. by rewrite !andb_false_r.
Qed.

Lemma as_dtypes_same (rows : list Row) :
  (∀ j, float_column (column j rows) = false) → as_dtypes rows = rows.
Proof.
  intros Hcols. unfold as_dtypes. rewrite <-(list_fmap_id rows) at 2.
  apply list_fmap_ext. intros _ r _. cbn.
  rewrite <-(list_fmap_id r) at 2. rewrite <-imap_const.
  apply imap_ext. intros j v _. by rewrite Hcols.
Qed.

Section Queries.
Context {D : Type} (drv : Driver D).

(** The end of [native_query] and [get_columns]: the cursor is closed, and
    the connection too when the call opened it. *)
Lemma release_run {A} (h h1 : Handler) (w w1 w3 : World D) conn cur d5 d6 oc (a : A) :
  connect drv (h, w) = (Return oc, (h1, w1)) →
  oc = Some conn →
  drv_cursor_close drv cur (dstate w3) = (Return tt, d5) →
  (is_connected h = false → drv_close drv conn d5 = (Return tt, d6)) →
  ∃ h' w',
    (cursor_close drv cur;;
     (if negb (is_connected h) then disconnect drv;; mret tt else mret tt);;
     mret a) (h1, w3) = (Return a, (h', w')) ∧
    is_connected h' = is_connected h ∧
    connection h' = Some conn ∧
    heap w' = heap w3 ∧
    errlog w' = errlog w3 ∧
    calls w' = calls w3 ++ release_calls (is_connected h) conn cur.
Proof.
  intros Hrun -> Hcl Hclose.
  destruct (connect_inv_Return _ _ _ _ _ _ Hrun) as (Hconn & Hflag & Hcase).
  py_unfold. rewrite Hcl. py_unfold.
  destruct (is_connected h) eqn:Hc; py_unfold.
  - destruct Hcase as [(_ & -> & _)|(? & _)]; [|done].
    eexists _, _. split; [done|]. cbn. split_and!; done.
  - erewrite (disconnect_connected drv h1 _ conn d6); [|done..|by apply Hclose].
    py_unfold. eexists _, _. split; [done|]. cbn.
    rewrite <-(assoc_L (++)). split_and!; done.
Qed.


(** C7.  A statement that the driver executes and for which it fetches no
    row is committed, once, on the connection of the call, and the response
    is OK. *)
Theorem native_query_commits_once (q : string) (h h1 : Handler) (w w1 : World D)
    conn cur d2 d3 d4 d4' d5 d6 :
  connect drv (h, w) = (Return (Some conn), (h1, w1)) →
  drv_cursor drv conn (dstate w1) = (Return cur, d2) →
  drv_execute drv cur q d2 = (Return tt, d3) →
  drv_fetchall drv cur d3 = (Return [], d4) →
  drv_commit drv conn d4 = (Return tt, d4') →
  drv_cursor_close drv cur d4' = (Return tt, d5) →
  (is_connected h = false → drv_close drv conn d5 = (Return tt, d6)) →
  ∃ h' w' cs,
    native_query drv q (h, w) = (Return (mkResponse OK None None), (h', w')) ∧
    is_connected h' = is_connected h ∧
    calls w' = calls w1 ++ cs ∧
    cs = [CallCursor conn; CallExecute cur q; CallFetchall cur; CallCommit conn]
           ++ release_calls (is_connected h) conn cur ∧
    count_calls is_commit cs = 1.
Proof.
  intros Hrun Hcur Hex Hfetch Hcommit Hcl Hclose.
  set (w3 := after_call (CallCommit conn) d4'
               (after_call (CallFetchall cur) d4
                  (after_call (CallExecute cur q) d3 (after_call (CallCursor conn) d2 w1)))).
  destruct (release_run h h1 w w1 w3 conn cur d5 d6 (Some conn) (mkResponse OK None None))
    as (h' & w' & Hrel & Hflag & _ & _ & _ & Hcalls); [done..|].
  exists h', w'. eexists. split_and!; [|done| |done|].
  - rewrite <-Hrel. unfold native_query. py_unfold. rewrite Hrun. py_unfold.
    rewrite Hcur. py_unfold. rewrite Hex. py_unfold. rewrite Hfetch.
    rewrite bool_decide_false by (by intros []). py_unfold. rewrite Hcommit. done.
  - rewrite Hcalls. subst w3. cbn. by rewrite <-!(assoc_L (++)).
  - by destruct (is_connected h).
Qed.

(** C2.  When [execute], [fetchall] or [commit] raises, [native_query]
    returns (it does not raise) an ERROR response whose message is the text
    of the exception; among the driver calls it made the cursor is closed
    once, and the connection is closed last when the call had opened it.
    The failure is logged with the text of the query. *)
Theorem native_query_catches (q : string) (h h1 : Handler) (w w1 : World D)
    conn cur d2 d4 d5 d6 e cs :
  connect drv (h, w) = (Return (Some conn), (h1, w1)) →
  drv_cursor drv conn (dstate w1) = (Return cur, d2) →
  execution_raises drv conn cur q d2 e d4 cs →
  drv_cursor_close drv cur d4 = (Return tt, d5) →
  (is_connected h = false → drv_close drv conn d5 = (Return tt, d6)) →
  ∃ h' w' new,
    native_query drv q (h, w)
      = (Return (mkResponse ERROR None (Some (exn_str e))), (h', w')) ∧
    is_connected h' = is_connected h ∧
    calls w' = calls w1 ++ new ∧
    new = CallCursor conn :: cs ++ release_calls (is_connected h) conn cur ∧
    count_calls is_cursor_close new = 1 ∧
    (is_connected h = false → last new = Some (CallClose conn)) ∧
    errlog w' = errlog w1 ++
      ["Error running query: " +:+ q +:+ " on the Phoenix Query Server!"].
Proof.
  intros Hrun Hcur Hraise Hcl Hclose.
  set (msg := "Error running query: " +:+ q +:+ " on the Phoenix Query Server!").
  set (w2 := after_call (CallCursor conn) d2 w1).
  set (w3 := mkWorld (heap w1) d4 (calls w2 ++ cs) (errlog w1 ++ [msg])).
  destruct (release_run h h1 w w1 w3 conn cur d5 d6 (Some conn)
              (mkResponse ERROR None (Some (exn_str e))))
    as (h' & w' & Hrel & Hflag & _ & _ & Hlog & Hcalls); [done..|].
  exists h', w'. eexists. split_and!; [|done| |done| | |done].
  - rewrite <-Hrel. unfold native_query. py_unfold. rewrite Hrun. py_unfold.
    rewrite Hcur. py_unfold.
    destruct Hraise as [d' Hex|d1 d' Hex Hfetch|d1 d2' d' Hex Hfetch Hcommit];
      rewrite Hex; py_unfold; [by same_world|..];
      rewrite Hfetch; py_unfold; [by same_world|].
    rewrite bool_decide_false by (by intros []). py_unfold. rewrite Hcommit.
    py_unfold. by same_world.
  - rewrite Hcalls. subst w3 w2. cbn. by rewrite <-!(assoc_L (++)).
  - by destruct Hraise, (is_connected h).
  - intros ->.
    change (last ((CallCursor conn :: cs) ++ [CallCursorClose cur] ++ [CallClose conn])
            = Some (CallClose conn)).
    rewrite (assoc_L (++)). apply last_snoc.
Qed.

(** Every exception of the [try] suite is caught, also those that are not
    the driver's: a cursor without description makes the list of labels
    raise [TypeError], and the response is ERROR. *)
Lemma native_query_no_description (q : string) (h h1 : Handler) (w w1 : World D)
    conn cur d2 d3 d4 d5 d6 (rows : list Row) :
  connect drv (h, w) = (Return (Some conn), (h1, w1)) →
  drv_cursor drv conn (dstate w1) = (Return cur, d2) →
  drv_execute drv cur q d2 = (Return tt, d3) →
  drv_fetchall drv cur d3 = (Return rows, d4) →
  rows ≠ [] →
  drv_description drv cur d4 = None →
  drv_cursor_close drv cur d4 = (Return tt, d5) →
  (is_connected h = false → drv_close drv conn d5 = (Return tt, d6)) →
  ∃ h' w', native_query drv q (h, w)
    = (Return (mkResponse ERROR None (Some "'NoneType' object is not iterable")),
       (h', w')).
Proof.
  intros Hrun Hcur Hex Hfetch Hne Hdesc Hcl Hclose.
  set (msg := "Error running query: " +:+ q +:+ " on the Phoenix Query Server!").
  set (w3 := mkWorld (heap w1) d4
               (calls w1 ++ [CallCursor conn; CallExecute cur q; CallFetchall cur])
               (errlog w1 ++ [msg])).
  destruct (release_run h h1 w w1 w3 conn cur d5 d6 (Some conn)
              (mkResponse ERROR None (Some "'NoneType' object is not iterable")))
    as (h' & w' & Hrel & _); [done..|].
  exists h', w'. rewrite <-Hrel. unfold native_query. py_unfold. rewrite Hrun.
  py_unfold. rewrite Hcur. py_unfold. rewrite Hex. py_unfold. rewrite Hfetch.
  rewrite bool_decide_true by done. py_unfold. rewrite Hdesc. py_unfold.
  by same_world.
Qed.

(** An exception of [connect] leaves [native_query] and [get_columns] as it
    is: the [try] statement has not been entered. *)
Lemma native_query_connect_raises (q : string) (s s' : State) e :
  connect drv s = (Raise e, s') → native_query drv q s = (Raise e, s').
Proof.
  intros Hrun. unfold native_query. py_unfold. destruct s as [h w].
  py_unfold. by rewrite Hrun.
Qed.

Lemma get_columns_connect_raises (table_name : string) (s s' : State) e :
  connect drv s = (Raise e, s') → get_columns drv table_name s = (Raise e, s').
Proof.
  intros Hrun. unfold get_columns. py_unfold. destruct s as [h w].
  py_unfold. by rewrite Hrun.
Qed.

(** C10.  When the handler is not connected and the driver's [connect]
    raises, [native_query] and [get_columns] raise that exception: no
    response is built, nothing is logged, and no cursor was requested. *)
Theorem connect_failure_propagates (q table_name : string) (h : Handler) (w : World D)
    args e d :
  is_connected h = false →
  lookup_args (heap w (connection_data h)) = Some args →
  drv_connect drv args (dstate w) = (Raise e, d) →
  native_query drv q (h, w)
    = (Raise e, (h, mkWorld (heap w) d (calls w ++ [CallConnect args]) (errlog w))) ∧
  get_columns drv table_name (h, w)
    = (Raise e, (h, mkWorld (heap w) d (calls w ++ [CallConnect args]) (errlog w))).
Proof.
  intros Hc Hargs Hopen.
  assert (connect drv (h, w) = (Raise e, (h, after_call (CallConnect args) d w))) as Hrun.
  { rewrite (connect_fresh drv h w args) by done. by rewrite Hopen. }
  split; [by apply native_query_connect_raises|by apply get_columns_connect_raises].
Qed.

End Queries.



Lemma native_query_commits_once_witness :
  ∃ h' w' cs,
    native_query (Fake.driver Fake.updating) "UPSERT INTO t VALUES (1)"
                 (Fake.live, Fake.world_connected)
      = (Return (mkResponse OK None None), (h', w')) ∧
    is_connected h' = true ∧
    calls w' = calls Fake.world_connected ++ cs ∧
    cs = [CallCursor 7; CallExecute 3 "UPSERT INTO t VALUES (1)"; CallFetchall 3;
          CallCommit 7] ++ release_calls true 7 3 ∧
    count_calls is_commit cs = 1.
Proof.
  apply (native_query_commits_once (Fake.driver Fake.updating)
           "UPSERT INTO t VALUES (1)" Fake.live Fake.live
           Fake.world_connected Fake.world_connected 7 3 tt tt tt tt tt tt).
  - reflexivity.
  - reflexivity.
  - reflexivity.
  - reflexivity.
  - reflexivity.
  - reflexivity.
  - discriminate.
Defined.

Lemma native_query_catches_witness :
  ∃ h' w' new,
    native_query (Fake.driver Fake.rejecting) "SELECT * FROM missing"
                 (Fake.fresh, Fake.world1)
      = (Return (mkResponse ERROR None (Some "Table undefined")), (h', w')) ∧
    is_connected h' = false ∧
    calls w' = calls Fake.world_connected ++ new ∧
    new = CallCursor 7 :: [CallExecute 3 "SELECT * FROM missing"]
            ++ release_calls false 7 3 ∧
    count_calls is_cursor_close new = 1 ∧
    (false = false → last new = Some (CallClose 7)) ∧
    errlog w' = errlog Fake.world_connected ++
      ["Error running query: " +:+ "SELECT * FROM missing"
         +:+ " on the Phoenix Query Server!"].
Proof.
  apply (native_query_catches (Fake.driver Fake.rejecting)
           "SELECT * FROM missing" Fake.fresh Fake.connected_fresh
           Fake.world1 Fake.world_connected 7 3 tt tt tt tt
           (Exn "ProgrammingError" "Table undefined")).
  - reflexivity.
  - reflexivity.
  - apply execute_raises. reflexivity.
  - reflexivity.
  - intros _. reflexivity.
Defined.

Lemma connect_failure_propagates_witness :
  native_query (Fake.driver Fake.unreachable) "SELECT 1" (Fake.fresh, Fake.world1)
    = (Raise (Exn "ConnectionError" "Connection refused"),
       (Fake.fresh,
        mkWorld (heap Fake.world1) tt
                (calls Fake.world1 ++ [CallConnect Fake.example_args])
                (errlog Fake.world1))) ∧
  get_columns (Fake.driver Fake.unreachable) "t" (Fake.fresh, Fake.world1)
    = (Raise (Exn "ConnectionError" "Connection refused"),
       (Fake.fresh,
        mkWorld (heap Fake.world1) tt
                (calls Fake.world1 ++ [CallConnect Fake.example_args])
                (errlog Fake.world1))).
Proof.
  apply (connect_failure_propagates (Fake.driver Fake.unreachable) "SELECT 1" "t"
           Fake.fresh Fake.world1 Fake.example_args
           (Exn "ConnectionError" "Connection refused") tt).
  - reflexivity.
  - reflexivity.
  - reflexivity.
Defined.

(** ** Properties of what a computation returns, by its structure *)

Section ReturnsOnly.
Context {S : Type}.

Lemma returns_only_ret {A} (P : A → Prop) (a : A) :
  P a → returns_only (S:=S) P (mret a).
Proof. intros HP s a' s' [= <- _]. done. Qed.

Lemma returns_only_raise {A} (P : A → Prop) (e : exn) :
  returns_only (S:=S) P (raise e).
Proof. intros s a s' [=]. Qed.

Lemma returns_only_bind {A B} (Q : A → Prop) (P : B → Prop)
    (m : M S A) (k : A → M S B) :
  returns_only Q m → (∀ a, Q a → returns_only P (k a)) →
  returns_only P (m ≫= k).
Proof.
  intros Hm Hk s b s'. unfold mbind, M_bind.
  destruct (m s) as [[a|e] s1] eqn:Hrun; [|done].
  intros Hrun'. by eapply Hk; [eapply Hm|].
Qed.

Lemma returns_only_then {A B} (P : B → Prop) (m : M S A) (k : A → M S B) :
  (∀ a, returns_only P (k a)) → returns_only P (m ≫= k).
Proof.
  intros Hk. apply (returns_only_bind (λ _, True)); [done|]. intros a _. apply Hk.
Qed.

Lemma returns_only_try_except {A} (P : A → Prop) (m : M S A) (handler : exn → M S A) :
  returns_only P m → (∀ e, returns_only P (handler e)) →
  returns_only P (try_except m handler).
Proof.
  intros Hm Hh s a s'. unfold try_except.
  destruct (m s) as [[a'|e] s1] eqn:Hrun.
  - intros [= <- <-]. by eapply Hm.
  - apply Hh.
Qed.

End ReturnsOnly.

Section Introspection.
Context {D : Type} (drv : Driver D).

(** A response of [native_query] carries a frame exactly when it is a
    TABLE response, and a message exactly when it is an ERROR response. *)
Lemma native_query_response_shape (q : string) (s s' : State) r :
  native_query drv q s = (Return r, s') →
  match resp_type r with
  | TABLE => is_Some (data_frame r) ∧ error_message r = None
  | OK => data_frame r = None ∧ error_message r = None
  | ERROR => data_frame r = None ∧ is_Some (error_message r)
  end.
Proof.
  revert s r s'. unfold native_query.
  do 3 (apply returns_only_then; intros ?).
  eapply returns_only_bind;
    [|intros r Hr; do 2 (apply returns_only_then; intros ?);
      apply returns_only_ret, Hr].
  apply returns_only_try_except.
  - do 2 (apply returns_only_then; intros ?). case_bool_decide.
    + do 2 (apply returns_only_then; intros ?). by apply returns_only_ret.
    + apply returns_only_then; intros ?. by apply returns_only_ret.
  - intros e. apply returns_only_then; intros ?. apply returns_only_ret.
    simpl. eauto.
Qed.

(** Without a frame in the response of the catalog query, [get_tables]
    raises where it subscripts the frame. *)
Lemma get_tables_without_frame (s s' : State) r :
  native_query drv catalog_query s = (Return r, s') →
  data_frame r = None →
  get_tables drv s
  = (Raise (Exn "TypeError" "'NoneType' object is not subscriptable"), s').
Proof.
  intros Hrun Hframe. unfold get_tables. py_unfold. rewrite Hrun. by rewrite Hframe.
Qed.

(** C5 (the part the code misses).  When the catalog query ends in an ERROR
    response, [get_tables] does not return that response: it raises
    [TypeError], because the response has no frame to filter. *)
Theorem get_tables_error_not_returned (s s' : State) r :
  native_query drv catalog_query s = (Return r, s') →
  resp_type r = ERROR →
  get_tables drv s
  = (Raise (Exn "TypeError" "'NoneType' object is not subscriptable"), s').
Proof.
  intros Hrun Hty. apply (get_tables_without_frame s s' r Hrun).
  pose proof (native_query_response_shape _ _ _ _ Hrun) as Hshape.
  rewrite Hty in Hshape. by destruct Hshape.
Qed.

(** The same happens when the catalog query fetches no row (an OK
    response). *)
Lemma get_tables_ok_not_returned (s s' : State) r :
  native_query drv catalog_query s = (Return r, s') →
  resp_type r = OK →
  get_tables drv s
  = (Raise (Exn "TypeError" "'NoneType' object is not subscriptable"), s').
Proof.
  intros Hrun Hty. apply (get_tables_without_frame s s' r Hrun).
  pose proof (native_query_response_shape _ _ _ _ Hrun) as Hshape.
  rewrite Hty in Hshape. by destruct Hshape.
Qed.

(** The post-processing of [get_tables] on rows (table, schema). *)
Lemma catalog_rows_filtered (n : string) (rows : list Row) :
  n ≠ "TABLE_SCHEM" →
  Forall (λ r : Row, length r = 2) rows →
  drop_cells [n; "TABLE_SCHEM"] "TABLE_SCHEM" <$>
    (filter (λ p : bool * Row, p.1 = true)
       (zip (series_ne ((λ r : Row, default PNone (r !! 1)) <$> rows) (PStr "SYSTEM"))
            rows)).*2
  = table_names rows.
Proof.
  intros Hn. induction 1 as [|r rows Hr _ IH]; [done|].
  destruct r as [|table [|schem [|]]]; try done.
  cbn [fmap list_fmap series_ne zip zip_with lookup list_lookup default].
  unfold series_ne in IH. cbn [table_names flat_map]. fold (table_names rows).
  rewrite filter_cons. cbn [fst]. case_bool_decide as Hs.
  - rewrite decide_True by done. rewrite decide_False by done.
    csimpl. rewrite IH. f_equal. unfold drop_cells. cbn [zip zip_with].
    rewrite filter_cons, decide_True by done.
    rewrite filter_cons, decide_False by (cbn; auto). done.
  - rewrite decide_False by done. cbn in Hs. by rewrite decide_True, IH.
Qed.

(** On a TABLE response with the columns of the
    catalog query, [get_tables] keeps the rows outside the SYSTEM schema,
    drops the schema column and labels the other one [table_name]. *)
Lemma get_tables_filters (s s' : State) (n : string) (rows : list Row) :
  native_query drv catalog_query s
    = (Return (mkResponse TABLE (Some (mkDataFrame [n; "TABLE_SCHEM"] rows)) None), s') →
  n ≠ "TABLE_SCHEM" →
  Forall (λ r : Row, length r = 2) rows →
  get_tables drv s
    = (Return (mkResponse TABLE (Some (mkDataFrame ["table_name"] (table_names rows))) None),
       s').
Proof.
  intros Hrun Hn Hrows. unfold get_tables. py_unfold. rewrite Hrun. py_unfold.
  unfold df_getitem. cbn [df_columns df_rows].
  cbn [list_find]. rewrite decide_False, decide_True by done.
  cbn [fmap option_fmap option_map prod_map fst snd]. py_unfold.
  unfold df_drop, df_select. cbn [df_columns df_rows].
  rewrite decide_True by set_solver. py_unfold.
  rewrite catalog_rows_filtered by done.
  rewrite filter_cons, decide_True by done.
  rewrite filter_cons, decide_False by auto.
  unfold df_columns_getitem, df_rename. cbn. by rewrite decide_True.
Qed.

(** The rows of [get_columns] hold strings only: no column of theirs is a
    column of doubles. *)
Lemma as_dtypes_column_rows (desc : list ColumnDesc) :
  as_dtypes (column_rows desc) = column_rows desc.
Proof.
  apply as_dtypes_same. intros j. apply float_column_no_number.
  unfold column, column_rows. rewrite <-list_fmap_compose.
  apply Forall_fmap, Forall_true. intros x. cbn. by destruct j as [|[|j]].
Qed.

Lemma pd_DataFrame_column_rows {S} (desc : list ColumnDesc) (s : S) :
  pd_DataFrame (column_rows desc) ["column_name"; "data_type"] s
  = (Return (mkDataFrame ["column_name"; "data_type"] (column_rows desc)), s).
Proof.
  rewrite pd_DataFrame_conform.
  - by rewrite as_dtypes_column_rows.
  - unfold column_rows. apply Forall_fmap. by apply Forall_true.
  - unfold column_rows. apply Forall_fmap, Forall_true. intros x. by repeat constructor.
Qed.

(** C6.  [get_columns t] sends the text [SELECT * from t LIMIT 5], with
    [t] as it is given, fetches the rows and does not look at them: the
    TABLE response has the labels [column_name] and [data_type] and one row
    per entry of [cursor.description], its name and its type code, in the
    order of the description, whatever [rows] the driver fetched. *)
Theorem get_columns_describes (table_name : string) (h h1 : Handler) (w w1 : World D)
    conn cur d2 d3 d4 d5 d6 (rows : list Row) (desc : list ColumnDesc) :
  connect drv (h, w) = (Return (Some conn), (h1, w1)) →
  drv_cursor drv conn (dstate w1) = (Return cur, d2) →
  drv_execute drv cur ("SELECT * from " +:+ table_name +:+ " LIMIT 5") d2
    = (Return tt, d3) →
  drv_fetchall drv cur d3 = (Return rows, d4) →
  drv_description drv cur d4 = Some desc →
  drv_cursor_close drv cur d4 = (Return tt, d5) →
  (is_connected h = false → drv_close drv conn d5 = (Return tt, d6)) →
  ∃ h' w',
    get_columns drv table_name (h, w)
      = (Return (mkResponse TABLE
                   (Some (mkDataFrame ["column_name"; "data_type"]
                            ((λ x, [PStr (cd_name x); PStr (cd_type_code x)]) <$> desc)))
                   None),
         (h', w')) ∧
    is_connected h' = is_connected h ∧
    calls w' = calls w1
                 ++ [CallCursor conn;
                     CallExecute cur ("SELECT * from " +:+ table_name +:+ " LIMIT 5");
                     CallFetchall cur]
                 ++ release_calls (is_connected h) conn cur.
Proof.
  intros Hrun Hcur Hex Hfetch Hdesc Hcl Hclose.
  set (q := "SELECT * from " +:+ table_name +:+ " LIMIT 5") in *.
  set (w3 := after_call (CallFetchall cur) d4
               (after_call (CallExecute cur q) d3 (after_call (CallCursor conn) d2 w1))).
  destruct (release_run drv h h1 w w1 w3 conn cur d5 d6 (Some conn)
              (mkResponse TABLE
                 (Some (mkDataFrame ["column_name"; "data_type"] (column_rows desc))) None))
    as (h' & w' & Hrel & Hflag & _ & _ & _ & Hcalls); [done..|].
  unfold column_rows in Hrel. exists h', w'. split_and!; [|done|].
  - rewrite <-Hrel. unfold get_columns. py_unfold. rewrite Hrun. py_unfold.
    rewrite Hcur. py_unfold. fold q. rewrite Hex. py_unfold. rewrite Hfetch.
    py_unfold. rewrite Hdesc. fold (column_rows desc).
    rewrite pd_DataFrame_column_rows. done.
  - rewrite Hcalls. subst w3. cbn. by rewrite <-!(assoc_L (++)).
Qed.

(** The other outcomes of [get_columns]: when [execute] or [fetchall]
    raises, the response is ERROR with the text of the exception.  The
    method never commits, so the raising call is one of the first two. *)
Lemma get_columns_catches (table_name : string) (h h1 : Handler) (w w1 : World D)
    conn cur d2 d4 d5 d6 e cs :
  connect drv (h, w) = (Return (Some conn), (h1, w1)) →
  drv_cursor drv conn (dstate w1) = (Return cur, d2) →
  execution_raises drv conn cur ("SELECT * from " +:+ table_name +:+ " LIMIT 5") d2 e d4 cs →
  length cs ≤ 2 →
  drv_cursor_close drv cur d4 = (Return tt, d5) →
  (is_connected h = false → drv_close drv conn d5 = (Return tt, d6)) →
  ∃ h' w',
    get_columns drv table_name (h, w)
      = (Return (mkResponse ERROR None (Some (exn_str e))), (h', w')).
Proof.
  intros Hrun Hcur Hraise Hlen Hcl Hclose.
  set (q := "SELECT * from " +:+ table_name +:+ " LIMIT 5") in *.
  set (msg := "Error running query: " +:+ q +:+ " on the Phoenix Query Server!").
  set (w3 := mkWorld (heap w1) d4 (calls w1 ++ CallCursor conn :: cs) (errlog w1 ++ [msg])).
  destruct (release_run drv h h1 w w1 w3 conn cur d5 d6 (Some conn)
              (mkResponse ERROR None (Some (exn_str e))))
    as (h' & w' & Hrel & _); [done..|].
  exists h', w'. rewrite <-Hrel. unfold get_columns. py_unfold. rewrite Hrun.
  py_unfold. rewrite Hcur. py_unfold. fold q.
  destruct Hraise as [d' Hex|d1 d' Hex Hfetch|d1 d2' d' Hex Hfetch Hcommit];
    [| |simpl in Hlen; lia]; rewrite Hex; py_unfold; [by same_world|].
  rewrite Hfetch. py_unfold. by same_world.
Qed.

End Introspection.

Lemma get_tables_error_not_returned_witness :
  get_tables (Fake.driver Fake.rejecting) (Fake.fresh, Fake.world1)
  = (Raise (Exn "TypeError" "'NoneType' object is not subscriptable"),
     (set_is_connected false Fake.connected_fresh,
      mkWorld (heap Fake.world1) tt
              (calls Fake.world_connected
                 ++ [CallCursor 7; CallExecute 3 catalog_query; CallCursorClose 3;
                     CallClose 7])
              ["Error running query: " +:+ catalog_query
                 +:+ " on the Phoenix Query Server!"])).
Proof.
  apply (get_tables_error_not_returned (Fake.driver Fake.rejecting)
           (Fake.fresh, Fake.world1) _
           (mkResponse ERROR None (Some "Table undefined"))).
  - reflexivity.
  - reflexivity.
Defined.

(** The example of the catalog with one system table and one user table. *)
Example get_tables_catalog_example :
  (get_tables (Fake.driver Fake.catalog) (Fake.fresh, Fake.world1)).1
  = Return (mkResponse TABLE (Some (mkDataFrame ["table_name"] [[PStr "T2"]])) None).
Proof. reflexivity. Qed.

Lemma get_columns_describes_witness :
  ∃ h' w',
    get_columns (Fake.driver Fake.serving) "foo" (Fake.fresh, Fake.world1)
      = (Return (mkResponse TABLE
                   (Some (mkDataFrame ["column_name"; "data_type"]
                            [[PStr "id"; PStr "INTEGER"]; [PStr "name"; PStr "VARCHAR"]]))
                   None),
         (h', w')) ∧
    is_connected h' = false ∧
    calls w' = calls Fake.world_connected
                 ++ [CallCursor 7; CallExecute 3 "SELECT * from foo LIMIT 5"; CallFetchall 3]
                 ++ release_calls false 7 3.
Proof.
  apply (get_columns_describes (Fake.driver Fake.serving) "foo"
           Fake.fresh Fake.connected_fresh Fake.world1 Fake.world_connected
           7 3 tt tt tt tt tt
           [[PInt 1; PStr "a"]; [PInt 2; PStr "b"]]
           [mkColumnDesc "id" "INTEGER"; mkColumnDesc "name" "VARCHAR"]).
  - reflexivity.
  - reflexivity.
  - reflexivity.
  - reflexivity.
  - reflexivity.
  - reflexivity.
  - intros _. reflexivity.
Defined.

(** ** The caller's configuration *)

Section Frame.
Context {D : Type} (drv : Driver D).

Lemma keeps_heap_pure {A} (r : outcome A) : keeps_heap (D:=D) (λ s, (r, s)).
Proof. by intros s r' s' [= _ <-]. Qed.

Lemma keeps_heap_ret {A} (a : A) : keeps_heap (D:=D) (mret a).
Proof. apply keeps_heap_pure. Qed.

Lemma keeps_heap_raise {A} (e : exn) : keeps_heap (D:=D) (A:=A) (raise e).
Proof. apply keeps_heap_pure. Qed.

Lemma keeps_heap_self {A} (f : Handler → A) : keeps_heap (D:=D) (self f).
Proof. by intros s r' s' [= _ <-]. Qed.

Lemma keeps_heap_self_set (f : Handler → Handler) : keeps_heap (D:=D) (self_set f).
Proof. by intros s r' s' [= _ <-]. Qed.

Lemma keeps_heap_log_error (msg : string) : keeps_heap (D:=D) (log_error msg).
Proof. by intros s r' s' [= _ <-]. Qed.

Lemma keeps_heap_invoke {A} (c : Call) (f : D → outcome A * D) :
  keeps_heap (invoke c f).
Proof.
  intros s r' s'. unfold invoke. destruct (f (dstate s.2)) as [r d].
  by intros [= _ <-].
Qed.

Lemma keeps_heap_getitem (d : loc) (key : string) :
  keeps_heap (D:=D) (in_world (dict_getitem d key)).
Proof.
  intros s r' s'. py_unfold. destruct (heap s.2 d !! key); intros [= _ <-]; done.
Qed.

Lemma keeps_heap_bind {A B} (m : M (@State D) A) (k : A → M State B) :
  keeps_heap m → (∀ a, keeps_heap (k a)) → keeps_heap (m ≫= k).
Proof.
  intros Hm Hk s r s'. unfold mbind, M_bind.
  destruct (m s) as [[a|e] s1] eqn:Hrun.
  - intros Hrun'. rewrite (Hk _ _ _ _ Hrun'). by eapply Hm.
  - intros [= _ <-]. by eapply Hm.
Qed.

Lemma keeps_heap_try_except {A} (m : M (@State D) A) (handler : exn → M State A) :
  keeps_heap m → (∀ e, keeps_heap (handler e)) → keeps_heap (try_except m handler).
Proof.
  intros Hm Hh s r s'. unfold try_except.
  destruct (m s) as [[a|e] s1] eqn:Hrun.
  - intros [= _ <-]. by eapply Hm.
  - intros Hrun'. rewrite (Hh _ _ _ _ Hrun'). by eapply Hm.
Qed.

Lemma keeps_heap_iter_description (cur : Cursor) :
  keeps_heap (iter_description drv cur).
Proof.
  intros s r s'. unfold iter_description.
  destruct (drv_description _ _ _); by intros [= _ <-].
Qed.

Lemma keeps_heap_pd_DataFrame (data : list Row) (columns : list string) :
  keeps_heap (D:=D) (pd_DataFrame data columns).
Proof.
  unfold pd_DataFrame. destruct data; [apply keeps_heap_ret|].
  cbv zeta. case_decide; [|apply keeps_heap_raise].
  destruct (convert_object_array _); [apply keeps_heap_ret|apply keeps_heap_raise].
Qed.

Lemma keeps_heap_df_getitem (df : DataFrame) (label : string) :
  keeps_heap (D:=D) (df_getitem df label).
Proof.
  unfold df_getitem. destruct (list_find _ _) as [[i c]|];
    [apply keeps_heap_ret|apply keeps_heap_raise].
Qed.

Lemma keeps_heap_df_drop (df : DataFrame) (label : string) :
  keeps_heap (D:=D) (df_drop df label).
Proof.
  unfold df_drop. case_decide; [apply keeps_heap_ret|apply keeps_heap_raise].
Qed.

Lemma keeps_heap_df_columns_getitem (df : DataFrame) (i : nat) :
  keeps_heap (D:=D) (df_columns_getitem df i).
Proof.
  unfold df_columns_getitem. destruct (_ !! _);
    [apply keeps_heap_ret|apply keeps_heap_raise].
Qed.

End Frame.

#[export] Hint Resolve keeps_heap_pure keeps_heap_ret keeps_heap_raise keeps_heap_self
  keeps_heap_self_set keeps_heap_log_error keeps_heap_invoke keeps_heap_getitem
  keeps_heap_bind keeps_heap_try_except keeps_heap_iter_description
  keeps_heap_pd_DataFrame keeps_heap_df_getitem keeps_heap_df_drop
  keeps_heap_df_columns_getitem : frame.

#[export] Hint Extern 3 (keeps_heap (if ?b then _ else _)) => destruct b : frame.
#[export] Hint Extern 3 (keeps_heap (match ?x with _ => _ end)) => destruct x : frame.

Section ConfigFrame.
Context {D : Type} (drv : Driver D).

Lemma keeps_heap_connect : keeps_heap (connect drv).
Proof. unfold connect. eauto 30 with frame. Qed.

Lemma keeps_heap_connection_cursor (c : option Conn) :
  keeps_heap (connection_cursor drv c).
Proof. unfold connection_cursor. eauto with frame. Qed.

Lemma keeps_heap_connection_commit (c : option Conn) :
  keeps_heap (connection_commit drv c).
Proof. unfold connection_commit. eauto with frame. Qed.

Lemma keeps_heap_connection_close (c : option Conn) :
  keeps_heap (connection_close drv c).
Proof. unfold connection_close. eauto with frame. Qed.

Lemma keeps_heap_disconnect : keeps_heap (disconnect drv).
Proof.
  pose proof keeps_heap_connection_close.
  unfold disconnect. eauto 20 with frame.
Qed.

Lemma keeps_heap_check_connection : keeps_heap (check_connection drv).
Proof.
  pose proof keeps_heap_connect. pose proof keeps_heap_disconnect.
  unfold check_connection. eauto 30 with frame.
Qed.

Lemma keeps_heap_native_query (q : string) : keeps_heap (native_query drv q).
Proof.
  pose proof keeps_heap_connect. pose proof keeps_heap_disconnect.
  pose proof keeps_heap_connection_cursor. pose proof keeps_heap_connection_commit.
  unfold native_query, cursor_execute, cursor_fetchall, cursor_close.
  eauto 40 with frame.
Qed.

Lemma keeps_heap_query {ASTNode : Type} (get_string : ASTNode → bool → outcome string)
    (ast : ASTNode) :
  keeps_heap (query drv get_string ast).
Proof.
  pose proof keeps_heap_native_query. unfold query. eauto with frame.
Qed.

Lemma keeps_heap_get_tables : keeps_heap (get_tables drv).
Proof.
  pose proof keeps_heap_native_query. unfold get_tables.
  apply keeps_heap_bind; [done|]. intros r. destruct (data_frame r); eauto 20 with frame.
Qed.

Lemma keeps_heap_get_columns (table_name : string) :
  keeps_heap (get_columns drv table_name).
Proof.
  pose proof keeps_heap_connect. pose proof keeps_heap_disconnect.
  pose proof keeps_heap_connection_cursor.
  unfold get_columns, cursor_execute, cursor_fetchall, cursor_close.
  eauto 40 with frame.
Qed.

Lemma keeps_heap_del : keeps_heap (__del__ drv).
Proof.
  pose proof keeps_heap_disconnect. unfold __del__. eauto 20 with frame.
Qed.

End ConfigFrame.

(** *** What [__init__] writes *)

Lemma filled_cons (p : string) (ps : list string) (cfg : dict) :
  filled (p :: ps) cfg
  = filled ps (if bool_decide (is_Some (cfg !! p)) then cfg else <[p := PNone]> cfg).
Proof. reflexivity. Qed.

Lemma lookup_filled (parameters : list string) (cfg : dict) (key : string) :
  filled parameters cfg !! key
  = match cfg !! key with
    | Some v => Some v
    | None => if decide (key ∈ parameters) then Some PNone else None
    end.
Proof.
  revert cfg. induction parameters as [|p ps IH]; intros cfg.
  - simpl. by destruct (cfg !! key).
  - rewrite filled_cons, IH. case_bool_decide as Hp.
    + destruct (cfg !! key) eqn:Hk; [done|].
      destruct (decide (key = p)) as [->|Hne].
      * destruct Hp as [v Hv]. congruence.
      * apply decide_ext. rewrite elem_of_cons. tauto.
    + destruct (decide (key = p)) as [->|Hne].
      * rewrite lookup_insert_eq. apply eq_None_not_Some in Hp. rewrite Hp.
        rewrite decide_True by set_solver. done.
      * rewrite lookup_insert_ne by done. destruct (cfg !! key); [done|].
        apply decide_ext. rewrite elem_of_cons. tauto.
Qed.

Section Init.
Context {D : Type}.

Lemma fill_parameters_run (parameters : list string) (d : loc) (w : World D) :
  ∃ hp, fill_parameters parameters d w
          = (Return tt, mkWorld hp (dstate w) (calls w) (errlog w)) ∧
        hp d = filled parameters (heap w d) ∧
        ∀ l, l ≠ d → hp l = heap w l.
Proof.
  revert w. induction parameters as [|p ps IH]; intros [hp0 d0 cs lg].
  - by exists hp0.
  - rewrite filled_cons. cbn [fill_parameters]. py_unfold.
    case_bool_decide as Hp; py_unfold.
    + destruct (IH (mkWorld hp0 d0 cs lg)) as (hp & Hrun & Hd & Hother).
      exists hp. by rewrite Hrun.
    + destruct (IH (mkWorld (<[d := <[p := PNone]> (hp0 d)]> hp0) d0 cs lg))
        as (hp & Hrun & Hd & Hother).
      exists hp. rewrite Hrun. split; [done|]. cbn in Hd, Hother. split.
      * by rewrite Hd, fn_lookup_insert.
      * intros l Hl. rewrite Hother by done. by rewrite fn_lookup_insert_ne.
Qed.

End Init.

(** C9 (amended).  The construction writes into the caller's dictionary: it
    adds the entry [None] for every optional parameter that the caller left
    out, and changes no entry that the caller supplied, nor any other
    dictionary.  After the construction no operation of the handler writes
    into a dictionary, however the operation ends. *)
Theorem config_written_only_by_init {D ASTNode : Type} (drv : Driver D)
    (get_string : ASTNode → bool → outcome string) :
  (∀ (name : string) (d : loc) (w : World D), ∃ w',
     __init__ name (Some d) w = (Return (mkHandler name "phoenix" d None false), w') ∧
     (∀ key v, heap w d !! key = Some v → heap w' d !! key = Some v) ∧
     (∀ key, heap w d !! key = None →
        heap w' d !! key
        = if decide (key ∈ optional_parameters) then Some PNone else None) ∧
     (∀ l, l ≠ d → heap w' l = heap w l)) ∧
  keeps_heap (connect drv) ∧
  keeps_heap (disconnect drv) ∧
  keeps_heap (check_connection drv) ∧
  (∀ q, keeps_heap (native_query drv q)) ∧
  (∀ ast, keeps_heap (query drv get_string ast)) ∧
  keeps_heap (get_tables drv) ∧
  (∀ table_name, keeps_heap (get_columns drv table_name)).
Proof.
  split_and!.
  - intros name d w.
    destruct (fill_parameters_run optional_parameters d w) as (hp & Hrun & Hd & Hother).
    eexists. unfold __init__. py_unfold. rewrite Hrun. split; [done|].
    cbn [heap]. rewrite Hd. split_and!; [| |done].
    + intros key v Hk. by rewrite lookup_filled, Hk.
    + intros key Hk. by rewrite lookup_filled, Hk.
  - apply keeps_heap_connect.
  - apply keeps_heap_disconnect.
  - apply keeps_heap_check_connection.
  - apply keeps_heap_native_query.
  - apply keeps_heap_query.
  - apply keeps_heap_get_tables.
  - apply keeps_heap_get_columns.
Qed.

(** C9 as stated fails at the construction: the caller passes the
    configuration of [connection_args_example], and after [__init__] the
    same object has entries that the caller did not supply. *)
Lemma init_writes_into_caller_config :
  Fake.constructed.1 = Return Fake.fresh ∧
  connection_data Fake.fresh = 0 ∧
  heap Fake.world0 0 !! "user" = None ∧
  heap Fake.constructed.2 0 !! "user" = Some PNone ∧
  heap Fake.constructed.2 0 ≠ heap Fake.world0 0.
Proof.
  split_and!; [reflexivity..|].
  intros Heq. apply (f_equal (λ cfg : dict, cfg !! "user")) in Heq.
  change (Some PNone = None) in Heq. discriminate.
Qed.

(** The construction on the example configuration: the handler of the
    examples, and the configuration with its nine keys. *)
Example init_example :
  Fake.constructed.1 = Return Fake.fresh ∧
  heap Fake.constructed.2 0 = heap Fake.world1 0.
Proof. split; reflexivity. Qed.

(** ** Further properties: construction and connection *)

Lemma filled_idempotent (parameters : list string) (cfg : dict) :
  filled parameters (filled parameters cfg) = filled parameters cfg.
Proof.
  apply map_eq. intros key. rewrite !lookup_filled.
  destruct (cfg !! key); [done|]. by case_decide.
Qed.

Lemma lookup_filled_optional (cfg : dict) (key : string) :
  key ∈ optional_parameters →
  filled optional_parameters cfg !! key = Some (default PNone (cfg !! key)).
Proof.
  intros Hkey. rewrite lookup_filled. destruct (cfg !! key); [done|].
  by rewrite decide_True.
Qed.

Lemma lookup_args_intro (cfg : dict) (args : ConnectArgs) :
  cfg !! "url" = Some (arg_url args) →
  cfg !! "max_retries" = Some (arg_max_retries args) →
  cfg !! "autocommit" = Some (arg_autocommit args) →
  cfg !! "auth" = Some (arg_auth args) →
  cfg !! "authentication" = Some (arg_authentication args) →
  cfg !! "avatica_user" = Some (arg_avatica_user args) →
  cfg !! "avatica_password" = Some (arg_avatica_password args) →
  cfg !! "user" = Some (arg_user args) →
  cfg !! "password" = Some (arg_password args) →
  lookup_args cfg = Some args.
Proof.
  intros H1 H2 H3 H4 H5 H6 H7 H8 H9. unfold lookup_args.
  rewrite H1, H2, H3, H4, H5, H6, H7, H8, H9. by destruct args.
Qed.

(** After the loop of [__init__] every optional parameter has an entry,
    so [connect] finds its nine keys as soon as the URL is there. *)
Lemma lookup_args_filled (cfg : dict) (url : pyval) :
  cfg !! "url" = Some url →
  lookup_args (filled optional_parameters cfg) = Some (args_with_defaults url cfg).
Proof.
  intros Hurl. apply lookup_args_intro;
    [by rewrite lookup_filled, Hurl|apply lookup_filled_optional; repeat constructor..].
Qed.

Lemma lookup_args_Some_iff (cfg : dict) :
  is_Some (lookup_args cfg) ↔ ∀ key, key ∈ connection_args.*1 → is_Some (cfg !! key).
Proof.
  split.
  - intros [args Hargs] key Hkey. unfold lookup_args in Hargs.
    repeat match type of Hargs with
           | context [cfg !! ?k] => destruct (cfg !! k) eqn:?; simpl in Hargs; [|done]
           end.
    cbn in Hkey. rewrite !elem_of_cons, elem_of_nil in Hkey.
    destruct_or!; subst; by eauto.
  - intros Hall. unfold lookup_args.
    repeat match goal with
           | |- context [cfg !! ?k] =>
               destruct (Hall k) as [? ->]; [cbn; set_solver|]; cbn [mbind option_bind]
           end.
    done.
Qed.

Section Construction.
Context {D : Type} (drv : Driver D).

(** A handler constructed on a configuration with a URL connects: the
    driver receives the URL and, for every optional parameter, the
    caller's value or an explicit [None]; no key is missing. *)
Theorem construct_then_connect (nm : string) (d : loc) (w : World D) (url : pyval) :
  heap w d !! "url" = Some url →
  ∃ h w0,
    __init__ nm (Some d) w = (Return h, w0) ∧
    connect drv (h, w0) =
      let args := args_with_defaults url (heap w d) in
      match drv_connect drv args (dstate w) with
      | (Return c, d') =>
          (Return (Some c),
           (set_is_connected true (set_connection (Some c) h),
            after_call (CallConnect args) d' w0))
      | (Raise e, d') => (Raise e, (h, after_call (CallConnect args) d' w0))
      end.
Proof.
  intros Hurl.
  destruct (fill_parameters_run optional_parameters d w) as (hp & Hrun & Hd & _).
  eexists _, _. split.
  - unfold __init__. py_unfold. by rewrite Hrun.
  - rewrite (connect_fresh drv _ _ (args_with_defaults url (heap w d))); [done..|].
    cbn. rewrite Hd. by apply lookup_args_filled.
Qed.

(** Without a URL in the configuration the construction succeeds all the
    same; [connect] then raises [KeyError] for [url] before it reaches the
    driver, and [check_connection] reports that text. *)
Theorem connect_without_url (nm : string) (d : loc) (w : World D) :
  heap w d !! "url" = None →
  ∃ h w0,
    __init__ nm (Some d) w = (Return h, w0) ∧
    connect drv (h, w0) = (Raise (Exn "KeyError" "'url'"), (h, w0)) ∧
    check_connection drv (h, w0)
      = (Return (mkStatusResponse false (Some "'url'")),
         (h, mkWorld (heap w0) (dstate w0) (calls w0)
                     (errlog w0 ++ ["Error connecting to the Phoenix Query Server, 'url'!"]))).
Proof.
  intros Hurl.
  destruct (fill_parameters_run optional_parameters d w) as (hp & Hrun & Hd & _).
  assert (hp d !! "url" = None) as Hnone.
  { rewrite Hd, lookup_filled, Hurl. done. }
  eexists _, _. split; [unfold __init__; py_unfold; by rewrite Hrun|].
  assert (connect drv (mkHandler nm "phoenix" d None false,
                       mkWorld hp (dstate w) (calls w) (errlog w))
          = (Raise (Exn "KeyError" "'url'"),
             (mkHandler nm "phoenix" d None false,
              mkWorld hp (dstate w) (calls w) (errlog w)))) as Hconnect.
  { unfold connect. py_unfold. by rewrite Hnone. }
  split; [done|]. unfold check_connection. py_unfold. by rewrite Hconnect.
Qed.

(** The handler keeps a reference to the caller's dictionary, not a copy:
    a URL that the caller stores after the construction is the one that
    [connect] passes to the driver. *)
Theorem connect_reads_live_config (nm : string) (d : loc) (w : World D) (url : pyval) :
  ∃ h w0 w1,
    __init__ nm (Some d) w = (Return h, w0) ∧
    dict_setitem d "url" url w0 = (Return tt, w1) ∧
    connect drv (h, w1) =
      let args := args_with_defaults url (heap w d) in
      match drv_connect drv args (dstate w) with
      | (Return c, d') =>
          (Return (Some c),
           (set_is_connected true (set_connection (Some c) h),
            after_call (CallConnect args) d' w1))
      | (Raise e, d') => (Raise e, (h, after_call (CallConnect args) d' w1))
      end.
Proof.
  destruct (fill_parameters_run optional_parameters d w) as (hp & Hrun & Hd & _).
  eexists _, _, _. split; [unfold __init__; py_unfold; by rewrite Hrun|].
  split; [done|].
  rewrite (connect_fresh drv _ _ (args_with_defaults url (heap w d))); [done..|].
  cbn. rewrite fn_lookup_insert, Hd.
  apply lookup_args_intro; [apply lookup_insert_eq|..];
    (rewrite lookup_insert_ne by done; apply lookup_filled_optional; repeat constructor).
Qed.

(** Two handlers constructed on one dictionary share it, and the second
    construction finds nothing left to add. *)
Theorem construct_twice (nm1 nm2 : string) (d : loc) (w : World D) :
  ∃ h1 w1 h2 w2,
    __init__ nm1 (Some d) w = (Return h1, w1) ∧
    __init__ nm2 (Some d) w1 = (Return h2, w2) ∧
    connection_data h1 = connection_data h2 ∧
    heap w2 d = heap w1 d.
Proof.
  destruct (fill_parameters_run optional_parameters d w) as (hp & Hrun & Hd & _).
  destruct (fill_parameters_run optional_parameters d
              (mkWorld hp (dstate w) (calls w) (errlog w))) as (hp' & Hrun' & Hd' & _).
  eexists _, _, _, _. split; [unfold __init__; py_unfold; by rewrite Hrun|].
  split; [unfold __init__; py_unfold; by rewrite Hrun'|].
  split; [done|]. change (hp' d = hp d). cbn [heap] in Hd'.
  rewrite Hd', Hd. apply filled_idempotent.
Qed.

(** [connect] reads the keys that [connection_args] declares, in the
    order in which it declares them, and raises [KeyError] for the first
    one that the configuration does not have, with the handler and the
    world as they were. *)
Lemma connect_first_missing_key (h : Handler) (w : World D) i key :
  is_connected h = false →
  list_find (λ k, heap w (connection_data h) !! k = None) connection_args.*1
    = Some (i, key) →
  connect drv (h, w) = (Raise (Exn "KeyError" ("'" +:+ key +:+ "'")), (h, w)).
Proof.
  intros Hc Hfind. unfold connect. py_unfold. rewrite Hc.
  destruct w as [hp d cs lg]. cbn [heap] in Hfind. py_unfold.
  cbn [connection_args fmap list_fmap fst list_find] in Hfind.
  repeat match type of Hfind with
         | context [decide (?cfg !! ?k = None)] =>
             destruct (cfg !! k) eqn:?; py_unfold;
             [rewrite decide_False in Hfind by done
             |rewrite decide_True in Hfind by done; by simplify_eq/=]
         end.
  done.
Qed.

(** On a handler that is not connected, [connect] makes its driver call
    exactly when the configuration has every key that [connection_args]
    declares.  It then ends as the driver's [connect] ends.  With a
    declared key missing it raises [KeyError] for the first missing one,
    before any driver call, and leaves the handler and the world as they
    were. *)
Theorem connect_needs_declared_args (h : Handler) (w : World D) :
  is_connected h = false →
  ((∀ key, key ∈ connection_args.*1 → is_Some (heap w (connection_data h) !! key))
   ↔ ∃ args, calls (connect drv (h, w)).2.2 = calls w ++ [CallConnect args]) ∧
  ((∀ key, key ∈ connection_args.*1 → is_Some (heap w (connection_data h) !! key)) →
   ∃ args,
     lookup_args (heap w (connection_data h)) = Some args ∧
     connect drv (h, w) =
       match drv_connect drv args (dstate w) with
       | (Return c, d) =>
           (Return (Some c),
            (set_is_connected true (set_connection (Some c) h),
             after_call (CallConnect args) d w))
       | (Raise e, d) => (Raise e, (h, after_call (CallConnect args) d w))
       end) ∧
  (∀ key, key ∈ connection_args.*1 → heap w (connection_data h) !! key = None →
   ∃ i first,
     list_find (λ k, heap w (connection_data h) !! k = None) connection_args.*1
       = Some (i, first) ∧
     connect drv (h, w) = (Raise (Exn "KeyError" ("'" +:+ first +:+ "'")), (h, w))).
Proof.
  intros Hc. rewrite <-lookup_args_Some_iff. split_and!; [split|..].
  - intros [args Hargs]. exists args. rewrite (connect_fresh drv h w args) by done.
    by destruct (drv_connect drv args (dstate w)) as [[c|e] d'].
  - intros [args Hcalls].
    destruct (lookup_args (heap w (connection_data h))) eqn:Hargs; [done|].
    destruct (connect_missing_key drv h w) as [key Hkey]; [done..|].
    rewrite Hkey in Hcalls. cbn in Hcalls.
    apply (f_equal length) in Hcalls. rewrite length_app in Hcalls. cbn in Hcalls. lia.
  - intros [args Hargs]. exists args. split; [done|]. by apply connect_fresh.
  - intros key Hkey Hnone.
    destruct (list_find_elem_of (λ k, heap w (connection_data h) !! k = None)
                connection_args.*1 key Hkey Hnone) as [[i first] Hfind].
    exists i, first. split; [done|]. by apply (connect_first_missing_key h w i).
Qed.

End Construction.

Lemma construct_then_connect_witness :
  ∃ h w0,
    __init__ "phoenix_datasource" (Some 0) Fake.world0 = (Return h, w0) ∧
    connect (Fake.driver Fake.serving) (h, w0) =
      let args := args_with_defaults (PStr "http://127.0.0.1:8765") (heap Fake.world0 0) in
      match drv_connect (Fake.driver Fake.serving) args (dstate Fake.world0) with
      | (Return c, d') =>
          (Return (Some c),
           (set_is_connected true (set_connection (Some c) h),
            after_call (CallConnect args) d' w0))
      | (Raise e, d') => (Raise e, (h, after_call (CallConnect args) d' w0))
      end.
Proof.
  apply (construct_then_connect (Fake.driver Fake.serving) "phoenix_datasource" 0
           Fake.world0 (PStr "http://127.0.0.1:8765")).
  reflexivity.
Defined.

Lemma connect_without_url_witness :
  ∃ h w0,
    __init__ "phoenix_datasource" (Some 0) Fake.world_without_url = (Return h, w0) ∧
    connect (Fake.driver Fake.serving) (h, w0)
      = (Raise (Exn "KeyError" "'url'"), (h, w0)) ∧
    check_connection (Fake.driver Fake.serving) (h, w0)
      = (Return (mkStatusResponse false (Some "'url'")),
         (h, mkWorld (heap w0) (dstate w0) (calls w0)
                     (errlog w0 ++ ["Error connecting to the Phoenix Query Server, 'url'!"]))).
Proof.
  apply (connect_without_url (Fake.driver Fake.serving) "phoenix_datasource" 0
           Fake.world_without_url).
  reflexivity.
Defined.

Lemma connect_needs_declared_args_witness :
  ((∀ key, key ∈ connection_args.*1 → is_Some (heap Fake.world_without_url 0 !! key))
   ↔ ∃ args, calls (connect (Fake.driver Fake.serving)
                            (Fake.fresh, Fake.world_without_url)).2.2
             = calls Fake.world_without_url ++ [CallConnect args]) ∧
  ((∀ key, key ∈ connection_args.*1 → is_Some (heap Fake.world_without_url 0 !! key)) →
   ∃ args,
     lookup_args (heap Fake.world_without_url 0) = Some args ∧
     connect (Fake.driver Fake.serving) (Fake.fresh, Fake.world_without_url) =
       match drv_connect (Fake.driver Fake.serving) args (dstate Fake.world_without_url) with
       | (Return c, d) =>
           (Return (Some c),
            (set_is_connected true (set_connection (Some c) Fake.fresh),
             after_call (CallConnect args) d Fake.world_without_url))
       | (Raise e, d) =>
           (Raise e, (Fake.fresh, after_call (CallConnect args) d Fake.world_without_url))
       end) ∧
  (∀ key, key ∈ connection_args.*1 → heap Fake.world_without_url 0 !! key = None →
   ∃ i first,
     list_find (λ k, heap Fake.world_without_url 0 !! k = None) connection_args.*1
       = Some (i, first) ∧
     connect (Fake.driver Fake.serving) (Fake.fresh, Fake.world_without_url)
       = (Raise (Exn "KeyError" ("'" +:+ first +:+ "'")),
          (Fake.fresh, Fake.world_without_url))).
Proof.
  apply (connect_needs_declared_args (Fake.driver Fake.serving) Fake.fresh
           Fake.world_without_url).
  reflexivity.
Defined.

(** ** Further properties: what every method keeps *)

Section RunRel.
Context {D : Type} (R : relation (@State D)) `{!PreOrder R}.
#[local] Set Default Proof Using "All".

Lemma run_rel_pure {A} (o : outcome A) : run_rel R (λ s, (o, s)).
Proof. by intros s o' s' [= _ <-]. Qed.

Lemma run_rel_ret {A} (a : A) : run_rel R (mret a).
Proof. apply run_rel_pure. Qed.

Lemma run_rel_raise {A} (e : exn) : run_rel (A:=A) R (raise e).
Proof. apply run_rel_pure. Qed.

Lemma run_rel_self {A} (f : Handler → A) : run_rel R (self f).
Proof. by intros s o' s' [= _ <-]. Qed.

Lemma run_rel_getitem (d : loc) (key : string) :
  run_rel R (in_world (dict_getitem d key)).
Proof.
  intros [h w] o s'. py_unfold.
  destruct (heap w d !! key); intros [= _ <-]; by destruct w.
Qed.

Lemma run_rel_bind {A B} (m : M (@State D) A) (k : A → M State B) :
  run_rel R m → (∀ a, run_rel R (k a)) → run_rel R (m ≫= k).
Proof.
  intros Hm Hk s o s'. unfold mbind, M_bind.
  destruct (m s) as [[a|e] s1] eqn:Hrun.
  - intros Hrun'. etrans; [by eapply Hm|by eapply Hk].
  - intros [= _ <-]. by eapply Hm.
Qed.

Lemma run_rel_try_except {A} (m : M (@State D) A) (handler : exn → M State A) :
  run_rel R m → (∀ e, run_rel R (handler e)) → run_rel R (try_except m handler).
Proof.
  intros Hm Hh s o s'. unfold try_except.
  destruct (m s) as [[a|e] s1] eqn:Hrun.
  - intros [= _ <-]. by eapply Hm.
  - intros Hrun'. etrans; [by eapply Hm|by eapply Hh].
Qed.

Lemma run_rel_pd_DataFrame (data : list Row) (columns : list string) :
  run_rel R (pd_DataFrame data columns).
Proof.
  unfold pd_DataFrame. destruct data; [apply run_rel_ret|].
  cbv zeta. case_decide; [|apply run_rel_raise].
  destruct (convert_object_array _); [apply run_rel_ret|apply run_rel_raise].
Qed.

Lemma run_rel_df_getitem (df : DataFrame) (label : string) :
  run_rel R (df_getitem df label).
Proof.
  unfold df_getitem. destruct (list_find _ _) as [[i c]|];
    [apply run_rel_ret|apply run_rel_raise].
Qed.

Lemma run_rel_df_drop (df : DataFrame) (label : string) :
  run_rel R (df_drop df label).
Proof.
  unfold df_drop. case_decide; [apply run_rel_ret|apply run_rel_raise].
Qed.

Lemma run_rel_df_columns_getitem (df : DataFrame) (i : nat) :
  run_rel R (df_columns_getitem df i).
Proof.
  unfold df_columns_getitem. destruct (_ !! _);
    [apply run_rel_ret|apply run_rel_raise].
Qed.

Lemma run_rel_iter_description (drv : Driver D) (cur : Cursor) :
  run_rel R (iter_description drv cur).
Proof.
  intros s o s'. unfold iter_description.
  destruct (drv_description _ _ _); by intros [= _ <-].
Qed.

(** The three ways in which a method changes the state. *)
Lemma run_rel_invoke {A} (c : Call) (f : D → outcome A * D) :
  (∀ h w d, R (h, w) (h, after_call c d w)) → run_rel R (invoke c f).
Proof.
  intros HR [h w] o s'. unfold invoke. cbn [fst snd].
  destruct (f (dstate w)) as [r d]. intros [= _ <-]. apply HR.
Qed.

Lemma run_rel_log_error (msg : string) :
  (∀ h w, R (h, w) (h, mkWorld (heap w) (dstate w) (calls w) (errlog w ++ [msg]))) →
  run_rel R (log_error msg).
Proof. intros HR [h w] o s' [= _ <-]. apply HR. Qed.

Lemma run_rel_self_set (f : Handler → Handler) :
  (∀ h w, R (h, w) (f h, w)) → run_rel R (self_set f).
Proof. intros HR [h w] o s' [= _ <-]. apply HR. Qed.

End RunRel.

Lemma run_rel_weaken {D A} (R R' : relation (@State D)) (m : M State A) :
  (∀ s s', R s s' → R' s s') → run_rel R m → run_rel R' m.
Proof. intros HRR' Hm s o s' Hrun. by eapply HRR', Hm. Qed.

#[export] Hint Resolve run_rel_pure run_rel_ret run_rel_raise run_rel_self
  run_rel_getitem run_rel_bind run_rel_try_except run_rel_pd_DataFrame
  run_rel_df_getitem run_rel_df_drop run_rel_df_columns_getitem
  run_rel_iter_description : run.

#[export] Hint Extern 0 (PreOrder _) => apply _ : run.
#[export] Hint Extern 3 (run_rel _ (if ?b then _ else _)) => destruct b : run.
#[export] Hint Extern 3 (run_rel _ (match ?x with _ => _ end)) => destruct x : run.

#[export] Instance evolves_preorder : PreOrder evolves.
Proof.
  split.
  - by intros h.
  - intros h1 h2 h3 (? & ? & ? & ?) (? & ? & ? & ?).
    split_and!; [congruence..|auto].
Qed.

#[export] Instance handler_evolves_preorder {D} : PreOrder (@handler_evolves D).
Proof.
  split.
  - intros s. unfold handler_evolves. reflexivity.
  - intros s1 s2 s3. unfold handler_evolves. apply transitivity.
Qed.

#[export] Instance adds_calls_preorder {D} (kind : Call → bool) :
  PreOrder (@adds_calls D kind).
Proof.
  split.
  - intros s. exists []. by rewrite app_nil_r.
  - intros s1 s2 s3 (cs & Hcs & Hall) (cs' & Hcs' & Hall').
    exists (cs ++ cs'). rewrite Hcs', Hcs, (assoc_L (++)). split; [done|].
    by apply Forall_app.
Qed.

Section Kept.
Context {D : Type} (drv : Driver D).

Lemma evolves_invoke {A} (c : Call) (f : D → outcome A * D) :
  run_rel handler_evolves (invoke c f).
Proof. apply run_rel_invoke; [apply _|]. intros h w d. unfold handler_evolves. reflexivity. Qed.

Lemma evolves_log_error (msg : string) :
  run_rel (D:=D) handler_evolves (log_error msg).
Proof. apply run_rel_log_error; [apply _|]. intros h w. unfold handler_evolves. reflexivity. Qed.

Lemma evolves_clear_flag :
  run_rel (D:=D) handler_evolves (self_set (set_is_connected false)).
Proof. apply run_rel_self_set; [apply _|]. intros h w. by split_and!. Qed.

Lemma evolves_connect : run_rel handler_evolves (connect drv).
Proof.
  intros [h w] [oc|e] [h' w'] Hrun; unfold handler_evolves; cbn [fst].
  - destruct (connect_inv_Return _ _ _ _ _ _ Hrun)
      as (_ & _ & [(_ & -> & _)|(_ & args & c & d & _ & _ & _ & -> & _)]); [done|].
    split_and!; [done..|]. intros _ _. by eexists.
  - by destruct (connect_inv_Raise _ _ _ _ _ _ Hrun) as (_ & -> & _).
Qed.

Lemma adds_calls_invoke {A} (kind : Call → bool) (c : Call) (f : D → outcome A * D) :
  kind c = true → run_rel (adds_calls kind) (invoke c f).
Proof.
  intros Hkind. apply run_rel_invoke; [apply _|]. intros h w d. exists [c]. by split; [|constructor].
Qed.

Lemma adds_calls_log_error (kind : Call → bool) (msg : string) :
  run_rel (D:=D) (adds_calls kind) (log_error msg).
Proof. apply run_rel_log_error; [apply _|]. intros h w. exists []. by rewrite app_nil_r. Qed.

Lemma adds_calls_self_set (kind : Call → bool) (f : Handler → Handler) :
  run_rel (D:=D) (adds_calls kind) (self_set f).
Proof. apply run_rel_self_set; [apply _|]. intros h w. exists []. by rewrite app_nil_r. Qed.

Lemma adds_calls_weaken {A} (kind kind' : Call → bool) (m : M (@State D) A) :
  (∀ c, kind c = true → kind' c = true) →
  run_rel (adds_calls kind) m → run_rel (adds_calls kind') m.
Proof.
  intros Hk. apply run_rel_weaken. intros s s' (cs & Hcs & Hall).
  exists cs. split; [done|]. eapply Forall_impl; [done|]. apply Hk.
Qed.

End Kept.

#[export] Hint Resolve evolves_invoke evolves_log_error evolves_clear_flag
  adds_calls_log_error adds_calls_self_set : run.
#[export] Hint Extern 1 (run_rel (adds_calls _) (invoke _ _)) =>
  apply adds_calls_invoke; reflexivity : run.

Section KeptByMethods.
Context {D : Type} (drv : Driver D).

Lemma evolves_disconnect : run_rel handler_evolves (disconnect drv).
Proof. unfold disconnect, connection_close. eauto 20 with run. Qed.

Lemma evolves_native_query (q : string) :
  run_rel handler_evolves (native_query drv q).
Proof.
  pose proof (evolves_connect drv). pose proof evolves_disconnect.
  unfold native_query, connection_cursor, connection_commit,
    cursor_execute, cursor_fetchall, cursor_close.
  eauto 40 with run.
Qed.

Lemma evolves_get_columns (table_name : string) :
  run_rel handler_evolves (get_columns drv table_name).
Proof.
  pose proof (evolves_connect drv). pose proof evolves_disconnect.
  unfold get_columns, connection_cursor, cursor_execute, cursor_fetchall, cursor_close.
  eauto 40 with run.
Qed.

(** The handler stays consistent.  Whatever a method does and however it
    ends, the name, the dialect and the reference to the configuration
    are what the construction stored, and a handler whose flag and
    connection agreed before the call has them agree after it; the
    construction yields such a handler. *)
Theorem methods_keep_handler_consistent {ASTNode : Type}
    (get_string : ASTNode → bool → outcome string) :
  (∀ nm d (w w' : World D) h, __init__ nm (Some d) w = (Return h, w') → consistent h) ∧
  run_rel handler_evolves (connect drv) ∧
  run_rel handler_evolves (disconnect drv) ∧
  run_rel handler_evolves (__del__ drv) ∧
  run_rel handler_evolves (check_connection drv) ∧
  (∀ q, run_rel handler_evolves (native_query drv q)) ∧
  (∀ ast, run_rel handler_evolves (query drv get_string ast)) ∧
  run_rel handler_evolves (get_tables drv) ∧
  (∀ table_name, run_rel handler_evolves (get_columns drv table_name)).
Proof.
  pose proof (evolves_connect drv). pose proof evolves_disconnect.
  pose proof evolves_native_query. pose proof evolves_get_columns.
  split_and!; [|done|done| | | | | |done].
  - intros nm d w w' h. unfold __init__. py_unfold.
    destruct (fill_parameters optional_parameters d w) as [[[]|e] w1]; [|done].
    by intros [= <- _] [=].
  - unfold __del__. eauto 20 with run.
  - unfold check_connection. eauto 40 with run.
  - done.
  - intros ast. unfold query. eauto with run.
  - unfold get_tables. apply run_rel_bind; [apply _|done|].
    intros r. destruct (data_frame r); eauto 20 with run.
Qed.

(** On a consistent handler [connect] never returns [None]: what it
    returns is a connection object. *)
Theorem connect_returns_connection (h : Handler) (w : World D) oc (s' : State) :
  consistent h →
  connect drv (h, w) = (Return oc, s') →
  is_Some oc.
Proof.
  intros Hh Hrun. destruct s' as [h' w'].
  destruct (connect_inv_Return _ _ _ _ _ _ Hrun)
    as (<- & _ & [(Hc & -> & _)|(_ & args & c & d & _ & _ & _ & -> & _)]); [by apply Hh|].
  by eexists.
Qed.

(** A second [connect] is free: after a [connect] that returned, another
    one returns the same connection without touching the driver or the
    handler. *)
Theorem connect_twice (s s1 : State) oc :
  connect drv s = (Return oc, s1) →
  connect drv s1 = (Return oc, s1).
Proof.
  destruct s as [h w], s1 as [h1 w1]. intros Hrun.
  destruct (connect_inv_Return _ _ _ _ _ _ Hrun) as (<- & Hflag & _).
  by apply connect_connected.
Qed.

End KeptByMethods.

(** ** Further properties: which driver calls a method makes *)

Section CallsByMethod.
Context {D : Type} (drv : Driver D).

Lemma calls_connect : run_rel (adds_calls is_connect) (connect drv).
Proof. unfold connect. eauto 40 with run. Qed.

Lemma calls_disconnect : run_rel (adds_calls is_close) (disconnect drv).
Proof. unfold disconnect, connection_close. eauto 20 with run. Qed.

(** What a method says to the driver, however it ends: [connect] only
    opens, [disconnect] and [__del__] only close, [check_connection] only
    opens and closes (it sends no statement), and [get_columns] never
    commits. *)
Theorem driver_calls_by_method (table_name : string) :
  run_rel (adds_calls is_connect) (connect drv) ∧
  run_rel (adds_calls is_close) (disconnect drv) ∧
  run_rel (adds_calls is_close) (__del__ drv) ∧
  run_rel (adds_calls (λ c, is_connect c || is_close c)) (check_connection drv) ∧
  run_rel (adds_calls (λ c, negb (is_commit c))) (get_columns drv table_name).
Proof.
  pose proof calls_connect as Hconnect. pose proof calls_disconnect as Hdisconnect.
  split_and!; [done|done|..].
  - unfold __del__. eauto 20 with run.
  - pose proof (adds_calls_weaken is_connect (λ c, is_connect c || is_close c)
                  (connect drv) ltac:(by intros []) Hconnect).
    pose proof (adds_calls_weaken is_close (λ c, is_connect c || is_close c)
                  (disconnect drv) ltac:(by intros []) Hdisconnect).
    unfold check_connection. eauto 40 with run.
  - pose proof (adds_calls_weaken is_connect (λ c, negb (is_commit c))
                  (connect drv) ltac:(by intros []) Hconnect).
    pose proof (adds_calls_weaken is_close (λ c, negb (is_commit c))
                  (disconnect drv) ltac:(by intros []) Hdisconnect).
    unfold get_columns, connection_cursor, cursor_execute, cursor_fetchall, cursor_close.
    eauto 40 with run.
Qed.

End CallsByMethod.

(** ** Further properties: when closing fails *)

Section ClosingFails.
Context {D : Type} (drv : Driver D).

(** The ways in which [disconnect] ends. *)
Lemma disconnect_inv (h h' : Handler) (w w' : World D) o :
  disconnect drv (h, w) = (o, (h', w')) →
  (is_connected h = false ∧ o = Return PNone ∧ h' = h ∧ w' = w) ∨
  (is_connected h = true ∧ connection h = None ∧
   o = Raise (AttributeError_None "close") ∧ h' = h ∧ w' = w) ∨
  (is_connected h = true ∧ ∃ c d,
     connection h = Some c ∧ w' = after_call (CallClose c) d w ∧
     ((drv_close drv c (dstate w) = (Return tt, d) ∧
       o = Return (PBool false) ∧ h' = set_is_connected false h) ∨
      (∃ e, drv_close drv c (dstate w) = (Raise e, d) ∧ o = Raise e ∧ h' = h))).
Proof.
  unfold disconnect. py_unfold. destruct (is_connected h) eqn:Hc; py_unfold.
  - destruct (connection h) as [c|] eqn:Hconn; py_unfold.
    + destruct (drv_close drv c (dstate w)) as [[[]|e] d] eqn:Hclose; py_unfold;
        intros [= <- <- <-]; right; right; (split; [done|]); exists c, d; eauto 10.
    + intros [= <- <- <-]. right. left. by destruct w.
  - intros [= <- <- <-]. left. by destruct w.
Qed.

(** When [connection.close()] raises, [disconnect] raises that exception
    and the handler stays marked connected: the flag is cleared only
    after a close that returned. *)
Theorem disconnect_close_raises (h : Handler) (w : World D) c e d :
  is_connected h = true →
  connection h = Some c →
  drv_close drv c (dstate w) = (Raise e, d) →
  disconnect drv (h, w) = (Raise e, (h, after_call (CallClose c) d w)) ∧
  __del__ drv (h, w) = (Raise e, (h, after_call (CallClose c) d w)).
Proof.
  intros Hc Hconn Hclose.
  assert (disconnect drv (h, w) = (Raise e, (h, after_call (CallClose c) d w))) as Hrun.
  { unfold disconnect. py_unfold. rewrite Hc. py_unfold. rewrite Hconn. py_unfold.
    by rewrite Hclose. }
  split; [done|]. unfold __del__. py_unfold. rewrite Hc. py_unfold. by rewrite Hrun.
Qed.

(** [check_connection] raises in one case only: the handler was
    disconnected, the probe connected, and closing the probe's connection
    raised.  The handler is then left marked connected, holding that
    connection.  A failure of [connect] never makes it raise. *)
Theorem check_connection_raises_only_on_close (h h' : Handler) (w w' : World D) e :
  check_connection drv (h, w) = (Raise e, (h', w')) →
  is_connected h = false ∧ is_connected h' = true ∧
  ∃ c h1 w1 d,
    connect drv (h, w) = (Return (Some c), (h1, w1)) ∧
    drv_close drv c (dstate w1) = (Raise e, d) ∧
    h' = h1 ∧ connection h' = Some c ∧
    w' = after_call (CallClose c) d w1.
Proof.
  unfold check_connection. py_unfold.
  destruct (connect drv (h, w)) as [[oc|e'] [h1 w1]] eqn:Hrun; py_unfold.
  - destruct (connect_inv_Return _ _ _ _ _ _ Hrun) as (Hconn & Hflag & _).
    destruct (is_connected h) eqn:Hc; py_unfold; [done|].
    destruct (disconnect drv (h1, w1)) as [[v|e''] [h2 w2]] eqn:Hdis; py_unfold; [done|].
    intros ?; simplify_eq.
    destruct (disconnect_inv _ _ _ _ _ Hdis)
      as [(? & _)|[(_ & Hnone & ? & ? & ?)|(_ & c & d & Hc' & ? & Hcase)]].
    + congruence.
    + destruct (connect_inv_Return _ _ _ _ _ _ Hrun)
        as (_ & _ & [(? & _)|(_ & args & c & d & _ & _ & ? & ? & _)]);
        simplify_eq; cbn in *; congruence.
    + destruct Hcase as [(_ & ? & _)|(e0 & Hclose & ? & ?)]; simplify_eq.
      split_and!; [done..|]. exists c, h1, w1, d. by rewrite Hc'.
  - destruct (is_connected h1); py_unfold; done.
Qed.

End ClosingFails.

(** ** Further properties: the ways in which a query ends *)

Lemma count_calls_cons (kind : Call → bool) (c : Call) (l : list Call) :
  count_calls kind (c :: l) = (if kind c then 1 else 0) + count_calls kind l.
Proof.
  unfold count_calls. rewrite filter_cons. destruct (kind c); by case_decide.
Qed.

Lemma count_calls_app (kind : Call → bool) (l1 l2 : list Call) :
  count_calls kind (l1 ++ l2) = count_calls kind l1 + count_calls kind l2.
Proof. unfold count_calls. by rewrite filter_app, length_app. Qed.

Lemma count_calls_none (kind : Call → bool) (l : list Call) :
  Forall (λ c, kind c = false) l → count_calls kind l = 0.
Proof.
  induction 1 as [|c l Hc _ IH]; [done|]. by rewrite count_calls_cons, Hc, IH.
Qed.

Lemma pd_DataFrame_inv {S} (data : list Row) (columns : list string) (s s' : S) o :
  pd_DataFrame data columns s = (o, s') →
  s' = s ∧ ∀ df, o = Return df →
               df_columns df = columns ∧ length (df_rows df) = length data.
Proof.
  unfold pd_DataFrame. destruct data as [|r data].
  - intros [= <- <-]. split; [done|]. by intros df [= <-].
  - cbv zeta. case_decide; [destruct (convert_object_array _)|];
      intros [= <- <-]; (split; [done|]); intros df [=].
    subst df. split; [done|]. cbn [df_rows]. unfold transpose.
    by rewrite length_fmap, length_seq.
Qed.

(** Case analysis on the calls of a monadic run, in the order in which
    the run makes them. *)
Ltac crunch_step :=
  py_unfold;
  first
    [ match goal with
      | |- context [drv_cursor ?drv ?c ?d] =>
          destruct (drv_cursor drv c d) as [[?|?] ?] eqn:?
      end
    | match goal with
      | |- context [drv_execute ?drv ?c ?q ?d] =>
          destruct (drv_execute drv c q d) as [[[]|?] ?] eqn:?
      end
    | match goal with
      | |- context [drv_fetchall ?drv ?c ?d] =>
          destruct (drv_fetchall drv c d) as [[?|?] ?] eqn:?
      end
    | match goal with
      | |- context [bool_decide _] => case_bool_decide
      end
    | match goal with
      | |- context [drv_description ?drv ?c ?d] =>
          destruct (drv_description drv c d) eqn:?
      end
    | match goal with
      | |- context [@pd_DataFrame ?S (?f <$> ?desc) ["column_name"; "data_type"] ?s] =>
          change (@pd_DataFrame S (f <$> desc) ["column_name"; "data_type"] s)
            with (@pd_DataFrame S (column_rows desc) ["column_name"; "data_type"] s);
          rewrite (@pd_DataFrame_column_rows S desc s)
      end
    | match goal with
      | |- context [@pd_DataFrame ?S ?a ?b ?s] =>
          let H := fresh "Hframe" in
          destruct (@pd_DataFrame S a b s) as [[?|?] ?] eqn:H;
          apply pd_DataFrame_inv in H; destruct H as [-> H]
      end
    | match goal with
      | |- context [drv_commit ?drv ?c ?d] =>
          destruct (drv_commit drv c d) as [[[]|?] ?] eqn:?
      end
    | match goal with
      | |- context [drv_cursor_close ?drv ?c ?d] =>
          destruct (drv_cursor_close drv c d) as [[[]|?] ?] eqn:?
      end
    | match goal with
      | |- context [negb (is_connected ?h)] => destruct (is_connected h) eqn:?
      end
    | match goal with
      | |- context [disconnect ?drv ?s] =>
          destruct (disconnect drv s) as [[?|?] [? ?]] eqn:?
      end ].

Ltac crunch := repeat crunch_step; py_unfold.

Section QueryOutcomes.
Context {D : Type} (drv : Driver D).

(** The cases of [disconnect] in a hypothesis of a run. *)
Ltac invert_disconnect :=
  try match goal with
      | Hdis : disconnect _ _ = _ |- _ =>
          apply disconnect_inv in Hdis;
          destruct Hdis as [(? & ? & ? & ?)|[(? & ? & ? & ? & ?)
                           |(? & ? & ? & ? & ? & [(? & ? & ?)|(? & ? & ? & ?)])]];
          simplify_eq
      end;
  try congruence.

(** The facts about a returning run, once the calls it made are known. *)
Ltac close_return_case :=
  split_and!;
  [reflexivity|cbn; congruence
  |cbn; rewrite <-?(assoc_L (++)); reflexivity|repeat constructor
  |intros ?; first [discriminate|reflexivity]
  |intros ?; first [discriminate|reflexivity]
  |cbn [errlog resp_type]; case_decide; first [discriminate|done|by rewrite app_nil_r]
  |intros df ?; simplify_eq/=; try (split; [done|]);
   try match goal with
       | Hframe : ∀ df, Return ?a = Return df → _ |- _ =>
           destruct (Hframe a eq_refl) as [_ Hlen]; intros Hnil;
           rewrite Hnil in Hlen;
           match goal with Hne : ?rows ≠ [] |- _ => by destruct rows end
       end].

(** What [native_query] has done when it returns. *)
Lemma native_query_return_inv (q : string) (h h' : Handler) (w w' : World D) r :
  native_query drv q (h, w) = (Return r, (h', w')) →
  ∃ conn cur h1 w1 body,
    connect drv (h, w) = (Return (Some conn), (h1, w1)) ∧
    is_connected h' = is_connected h ∧
    calls w' = calls w1 ++ CallCursor conn :: body
                 ++ release_calls (is_connected h) conn cur ∧
    Forall (λ c, is_statement c = true) body ∧
    (resp_type r = OK → count_calls is_commit body = 1) ∧
    (resp_type r = TABLE → count_calls is_commit body = 0) ∧
    errlog w' = errlog w1 ++
      (if decide (resp_type r = ERROR) then [query_error_message q] else []) ∧
    (∀ df, data_frame r = Some df → resp_type r = TABLE ∧ df_rows df ≠ []).
Proof.
  unfold native_query. py_unfold.
  destruct (connect drv (h, w)) as [[[conn|]|e] [h1 w1]] eqn:Hrun; [|done..].
  destruct (connect_inv_Return _ _ _ _ _ _ Hrun) as (Hconn & Hflag & Hcase).
  crunch; try done.
  all: intros ?; simplify_eq.
  all: invert_disconnect.
  all: try (destruct Hcase as [(? & ? & ?)|(? & ? & ? & ? & ? & ? & ? & ? & ?)];
            simplify_eq; []).
  all: first
         [ eexists _, _, _, _, [CallExecute _ _]; close_return_case
         | eexists _, _, _, _, [CallExecute _ _; CallFetchall _]; close_return_case
         | eexists _, _, _, _, [CallExecute _ _; CallFetchall _; CallCommit _];
           close_return_case ].
Qed.

(** When [native_query] returns, the handler's flag is what it was before
    the call, whether the connection was borrowed or opened for the call;
    and the call has logged exactly when its response is ERROR, one
    message with the text of the query. *)
Theorem native_query_restores_flag_and_logs_errors (q : string) (h h' : Handler)
    (w w' : World D) r :
  native_query drv q (h, w) = (Return r, (h', w')) →
  is_connected h' = is_connected h ∧
  errlog w' = errlog w ++
    (if decide (resp_type r = ERROR) then [query_error_message q] else []).
Proof.
  intros Hrun.
  destruct (native_query_return_inv _ _ _ _ _ _ Hrun)
    as (conn & cur & h1 & w1 & body & Hconnect & Hflag & _ & _ & _ & _ & Hlog & _).
  split; [done|]. rewrite Hlog. f_equal.
  by destruct (connect_inv_Return _ _ _ _ _ _ Hconnect)
    as (_ & _ & [(_ & _ & ->)|(_ & args & c & d & _ & _ & _ & _ & ->)]).
Qed.

(** When [native_query] returns it has released what it acquired: among
    the driver calls it made there is one [cursor()] and one
    [cursor.close()]; a [connect] and a [close] of the connection when the
    handler was disconnected and neither of them otherwise; one [commit]
    for an OK response and none for a TABLE response. *)
Theorem native_query_releases_what_it_acquired (q : string) (h h' : Handler)
    (w w' : World D) r :
  native_query drv q (h, w) = (Return r, (h', w')) →
  ∃ new,
    calls w' = calls w ++ new ∧
    count_calls is_cursor new = 1 ∧
    count_calls is_cursor_close new = 1 ∧
    count_calls is_connect new = (if is_connected h then 0 else 1) ∧
    count_calls is_close new = count_calls is_connect new ∧
    (resp_type r = OK → count_calls is_commit new = 1) ∧
    (resp_type r = TABLE → count_calls is_commit new = 0).
Proof.
  intros Hrun.
  destruct (native_query_return_inv _ _ _ _ _ _ Hrun)
    as (conn & cur & h1 & w1 & body & Hconnect & _ & Hcalls & Hbody & Hok & Htable & _).
  assert (∀ kind, (∀ c, is_statement c = true → kind c = false) →
                  count_calls kind body = 0) as Hnone.
  { intros kind Hkind. by apply count_calls_none, (Forall_impl _ _ _ Hbody). }
  destruct (connect_inv_Return _ _ _ _ _ _ Hconnect)
    as (_ & _ & [(Hc & _ & ->)|(Hc & args & c & d & _ & _ & _ & _ & ->)]);
    rewrite Hc in *; cbn [release_calls after_call calls] in Hcalls.
  - exists (CallCursor conn :: body ++ [CallCursorClose cur]).
    split; [done|].
    rewrite !count_calls_cons, !count_calls_app, !Hnone by (by intros []).
    split_and!; [done..| |]; intros Hty; [rewrite Hok|rewrite Htable]; done.
  - exists (CallConnect args :: CallCursor conn :: body
            ++ [CallCursorClose cur; CallClose conn]).
    split; [by rewrite Hcalls, <-(assoc_L (++))|].
    rewrite !count_calls_cons, !count_calls_app, !Hnone by (by intros []).
    split_and!; [done..| |]; intros Hty; [rewrite Hok|rewrite Htable]; done.
Qed.

(** The response of [native_query] has a frame exactly when it is a TABLE
    response, and that frame is never empty: a statement that fetches no
    row is answered with OK.  It has a message exactly when it is an
    ERROR response. *)
Theorem native_query_table_has_rows (q : string) (s s' : State) r :
  native_query drv q s = (Return r, s') →
  (resp_type r = TABLE ↔ is_Some (data_frame r)) ∧
  (∀ df, data_frame r = Some df → df_rows df ≠ []) ∧
  (resp_type r = ERROR ↔ is_Some (error_message r)).
Proof.
  intros Hrun. destruct s as [h w], s' as [h' w'].
  pose proof (native_query_response_shape _ _ _ _ _ Hrun) as Hshape.
  destruct (native_query_return_inv _ _ _ _ _ _ Hrun)
    as (conn & cur & h1 & w1 & body & _ & _ & _ & _ & _ & _ & _ & Hframe).
  split_and!.
  - destruct (resp_type r); destruct Hshape as [Hf Hm]; split; try done;
      rewrite Hf; by intros [? [=]].
  - intros df Hdf. by apply Hframe.
  - destruct (resp_type r); destruct Hshape as [Hf Hm]; split; try done;
      rewrite Hm; by intros [? [=]].
Qed.

(** The exceptions of [native_query].  What it raises was raised by
    [connect], or by the driver in [cursor()], in [cursor.close()] or in
    the [close] of the connection (the last driver call made), or is the
    [AttributeError] of a handler that is marked connected without a
    connection: never an exception of [execute], [fetchall] or [commit].
    Unless [connect] raised, the handler is left marked connected, also
    when the connection had been opened for this call. *)
Theorem native_query_raises_outside_try (q : string) (h h' : Handler)
    (w w' : World D) e :
  native_query drv q (h, w) = (Raise e, (h', w')) →
  connect drv (h, w) = (Raise e, (h', w')) ∨
  (is_connected h' = true ∧
   ((∃ c, last (calls w') = Some c ∧ raised_by drv e c) ∨
    (connection h = None ∧ e = AttributeError_None "cursor"))).
Proof.
  unfold native_query. py_unfold.
  destruct (connect drv (h, w)) as [[[conn|]|e0] [h1 w1]] eqn:Hrun.
  - destruct (connect_inv_Return _ _ _ _ _ _ Hrun) as (Hconn & Hflag & _).
    crunch; try done.
    all: intros ?; simplify_eq.
    all: invert_disconnect.
    all: right; split; [done|]; left; eexists;
      (split; [cbn [calls after_call]; apply last_snoc|]); cbn; eauto.
  - destruct (connect_inv_Return _ _ _ _ _ _ Hrun)
      as (Hconn & Hflag & [(_ & -> & _)|(_ & args & c & d & _ & _ & [=] & _)]).
    py_unfold. intros ?; simplify_eq. right. split; [done|]. by right.
  - py_unfold. intros ?; simplify_eq. by left.
Qed.

Ltac close_columns_case :=
  split_and!;
  [reflexivity|cbn; congruence|cbn; rewrite <-?(assoc_L (++)); reflexivity
  |first [left; eexists _, _; split_and!; [eassumption|reflexivity|reflexivity]
         |right; eexists; split; reflexivity]].

(** What [get_columns] has done when it returns. *)
Lemma get_columns_return_inv (table_name : string) (h h' : Handler) (w w' : World D) r :
  get_columns drv table_name (h, w) = (Return r, (h', w')) →
  let q := "SELECT * from " +:+ table_name +:+ " LIMIT 5" in
  ∃ conn cur h1 w1 body,
    connect drv (h, w) = (Return (Some conn), (h1, w1)) ∧
    is_connected h' = is_connected h ∧
    calls w' = calls w1 ++ CallCursor conn :: CallExecute cur q :: body
                 ++ release_calls (is_connected h) conn cur ∧
    ((∃ d desc,
        drv_description drv cur d = Some desc ∧
        r = mkResponse TABLE
              (Some (mkDataFrame ["column_name"; "data_type"] (column_rows desc))) None ∧
        errlog w' = errlog w1) ∨
     (∃ msg, r = mkResponse ERROR None (Some msg) ∧
             errlog w' = errlog w1 ++ [query_error_message q])).
Proof.
  unfold get_columns. py_unfold.
  destruct (connect drv (h, w)) as [[[conn|]|e] [h1 w1]] eqn:Hrun; [|done..].
  destruct (connect_inv_Return _ _ _ _ _ _ Hrun) as (Hconn & Hflag & Hcase).
  crunch; try done.
  all: intros ?; simplify_eq.
  all: invert_disconnect.
  all: try (destruct Hcase as [(? & ? & ?)|(? & ? & ? & ? & ? & ? & ? & ? & ?)];
            simplify_eq; []).
  all: first [ eexists _, _, _, _, []; close_columns_case
             | eexists _, _, _, _, [CallFetchall _]; close_columns_case ].
Qed.

(** When [get_columns] returns, the handler's flag is what it was; the
    statement it executed is [SELECT * from t LIMIT 5] with the table name
    as given; and the response is never OK: either a TABLE response that
    lists, name and type code, a description that the driver reported for
    the cursor, or an ERROR response, logged with the text of the query. *)
Theorem get_columns_answers_from_description (table_name : string) (h h' : Handler)
    (w w' : World D) r :
  get_columns drv table_name (h, w) = (Return r, (h', w')) →
  let q := "SELECT * from " +:+ table_name +:+ " LIMIT 5" in
  is_connected h' = is_connected h ∧
  (∃ cur, CallExecute cur q ∈ drop (length (calls w)) (calls w')) ∧
  ((∃ cur d desc,
      drv_description drv cur d = Some desc ∧
      r = mkResponse TABLE
            (Some (mkDataFrame ["column_name"; "data_type"] (column_rows desc))) None ∧
      errlog w' = errlog w) ∨
   (∃ msg, r = mkResponse ERROR None (Some msg) ∧
           errlog w' = errlog w ++ [query_error_message q])).
Proof.
  intros Hrun q.
  destruct (get_columns_return_inv _ _ _ _ _ _ Hrun)
    as (conn & cur & h1 & w1 & body & Hconnect & Hflag & Hcalls & Hcase).
  fold q in Hcalls, Hcase.
  assert (errlog w1 = errlog w ∧ ∃ pre, calls w1 = calls w ++ pre) as [Hlog [pre Hpre]].
  { destruct (connect_inv_Return _ _ _ _ _ _ Hconnect)
      as (_ & _ & [(_ & _ & ->)|(_ & args & c & d & _ & _ & _ & _ & ->)]).
    - split; [done|]. exists []. by rewrite app_nil_r.
    - split; [done|]. by eexists. }
  split_and!; [done| |].
  - exists cur. rewrite Hcalls, Hpre, <-(assoc_L (++)), drop_app_length.
    rewrite elem_of_app. right. rewrite !elem_of_cons. auto.
  - rewrite <-Hlog. destruct Hcase as [(d & desc & ?)|?]; [left|right]; eauto.
Qed.

(** The exceptions of [get_columns] are those of [native_query]: raised by
    [connect], by [cursor()], by [cursor.close()] or by the [close] of the
    connection, never by the statement; and unless [connect] raised, the
    handler is left marked connected. *)
Theorem get_columns_raises_outside_try (table_name : string) (h h' : Handler)
    (w w' : World D) e :
  get_columns drv table_name (h, w) = (Raise e, (h', w')) →
  connect drv (h, w) = (Raise e, (h', w')) ∨
  (is_connected h' = true ∧
   ((∃ c, last (calls w') = Some c ∧ raised_by drv e c) ∨
    (connection h = None ∧ e = AttributeError_None "cursor"))).
Proof.
  unfold get_columns. py_unfold.
  destruct (connect drv (h, w)) as [[[conn|]|e0] [h1 w1]] eqn:Hrun.
  - destruct (connect_inv_Return _ _ _ _ _ _ Hrun) as (Hconn & Hflag & _).
    crunch; try done.
    all: intros ?; simplify_eq.
    all: invert_disconnect.
    all: right; split; [done|]; left; eexists;
      (split; [cbn [calls after_call]; apply last_snoc|]); cbn; eauto.
  - destruct (connect_inv_Return _ _ _ _ _ _ Hrun)
      as (Hconn & Hflag & [(_ & -> & _)|(_ & args & c & d & _ & _ & [=] & _)]).
    py_unfold. intros ?; simplify_eq. right. split; [done|]. by right.
  - py_unfold. intros ?; simplify_eq. by left.
Qed.

(** [get_tables] is [native_query] on the catalog query followed by work
    on the frame only: however it ends, it leaves the handler and the world
    exactly as that query leaves them, and an exception of that query is
    its exception.  When it returns, its response is a TABLE response
    whose frame has no [TABLE_SCHEM] column; it never returns an OK or an
    ERROR response.  What it raises beyond the exceptions of the query is
    [TypeError] on a response without frame, [KeyError] on a frame
    without [TABLE_SCHEM] column and [IndexError] on a frame without
    another column. *)
Theorem get_tables_returns_only_tables (s : State) :
  (get_tables drv s).2 = (native_query drv catalog_query s).2 ∧
  (∀ e, (native_query drv catalog_query s).1 = Raise e →
        (get_tables drv s).1 = Raise e) ∧
  (∀ r, (get_tables drv s).1 = Return r →
        resp_type r = TABLE ∧
        ∃ df, data_frame r = Some df ∧ "TABLE_SCHEM" ∉ df_columns df) ∧
  (∀ e, (get_tables drv s).1 = Raise e →
        (native_query drv catalog_query s).1 = Raise e ∨
        ∃ r0, (native_query drv catalog_query s).1 = Return r0 ∧
              match data_frame r0 with
              | None => (e = Exn "TypeError" "'NoneType' object is not subscriptable")
              | Some df =>
                  (("TABLE_SCHEM" ∉ df_columns df) ∧ e = Exn "KeyError" "'TABLE_SCHEM'") ∨
                  (filter (λ c, c ≠ "TABLE_SCHEM") (df_columns df) = [] ∧
                   exn_class e = "IndexError")
              end).
Proof.
  unfold get_tables. py_unfold.
  destruct (native_query drv catalog_query s) as [[r0|e0] s0] eqn:Hrun;
    [|split_and!; [done|done|done|intros e [= <-]; by left]].
  pose proof (native_query_response_shape _ _ _ _ _ Hrun) as Hshape.
  destruct (data_frame r0) as [df0|] eqn:Hdf;
    [|split_and!; [done|done|done|intros e [= <-]; right; exists r0; by rewrite Hdf]].
  assert (resp_type r0 = TABLE) as Hty.
  { destruct (resp_type r0); [done|destruct Hshape as [[=] _]..]. }
  unfold df_getitem.
  destruct (list_find _ _) as [[i c]|] eqn:Hfind; py_unfold.
  - unfold df_drop. case_decide as Hin; py_unfold.
    + unfold df_columns_getitem. cbn [df_columns df_select].
      destruct (filter _ (df_columns df0) !! 0) as [c0|] eqn:Hcols; py_unfold.
      * split_and!; [done|done| |done]. intros r [= <-]. split; [done|].
        eexists. split; [done|]. cbn.
        intros (c' & Hc' & Hc)%list_elem_of_fmap.
        apply list_elem_of_filter in Hc as [Hne _]. by case_decide.
      * split_and!; [done|done|done|]. intros e [= <-]. right. exists r0.
        rewrite Hdf. split; [done|]. right.
        by destruct (filter _ (df_columns df0)).
    + apply list_find_Some in Hfind as (Hi & -> & _).
      destruct Hin. cbn [df_columns df_select]. by eapply list_elem_of_lookup_2.
  - split_and!; [done|done|done|]. intros e [= <-]. right. exists r0.
    rewrite Hdf. split; [done|]. left. split; [|done].
    apply list_find_None in Hfind. intros Hin.
    by apply (proj1 (Forall_forall _ _) Hfind _ Hin).
Qed.

End QueryOutcomes.

(** ** Instances on the scripted driver *)

(** A run that is known by its outcome, written with its final state. *)
Lemma run_eta {A H W} (run : outcome A * (H * W)) (o : outcome A) :
  run.1 = o → run = (o, (run.2.1, run.2.2)).
Proof. destruct run as [o' [h w]]. by intros <-. Qed.

Lemma run_eta' {A S} (run : outcome A * S) (o : outcome A) :
  run.1 = o → run = (o, run.2).
Proof. destruct run as [o' s]. by intros <-. Qed.

Lemma connect_returns_connection_witness : is_Some (Some 7).
Proof.
  apply (connect_returns_connection (Fake.driver Fake.serving) Fake.fresh Fake.world1
           (Some 7) (Fake.connected_fresh, Fake.world_connected)).
  - intros [=].
  - reflexivity.
Defined.

Lemma connect_twice_witness :
  connect (Fake.driver Fake.serving) (Fake.connected_fresh, Fake.world_connected)
  = (Return (Some 7), (Fake.connected_fresh, Fake.world_connected)).
Proof.
  apply (connect_twice (Fake.driver Fake.serving) (Fake.fresh, Fake.world1)).
  reflexivity.
Defined.

Lemma disconnect_close_raises_witness :
  disconnect (Fake.driver Fake.stuck) (Fake.live, Fake.world_connected)
  = (Raise (Exn "OperationalError" "Broken pipe"),
     (Fake.live, after_call (CallClose 7) tt Fake.world_connected)) ∧
  __del__ (Fake.driver Fake.stuck) (Fake.live, Fake.world_connected)
  = (Raise (Exn "OperationalError" "Broken pipe"),
     (Fake.live, after_call (CallClose 7) tt Fake.world_connected)).
Proof.
  apply (disconnect_close_raises (Fake.driver Fake.stuck) Fake.live Fake.world_connected
           7 (Exn "OperationalError" "Broken pipe") tt); reflexivity.
Defined.

Lemma check_connection_raises_only_on_close_witness :
  is_connected Fake.fresh = false ∧ is_connected Fake.probed_stuck.2.1 = true ∧
  ∃ c h1 w1 d,
    connect (Fake.driver Fake.stuck) (Fake.fresh, Fake.world1)
      = (Return (Some c), (h1, w1)) ∧
    drv_close (Fake.driver Fake.stuck) c (dstate w1)
      = (Raise (Exn "OperationalError" "Broken pipe"), d) ∧
    Fake.probed_stuck.2.1 = h1 ∧ connection Fake.probed_stuck.2.1 = Some c ∧
    Fake.probed_stuck.2.2 = after_call (CallClose c) d w1.
Proof.
  apply (check_connection_raises_only_on_close (Fake.driver Fake.stuck)
           Fake.fresh Fake.probed_stuck.2.1 Fake.world1 Fake.probed_stuck.2.2
           (Exn "OperationalError" "Broken pipe")).
  apply run_eta. reflexivity.
Defined.

Lemma native_query_restores_flag_and_logs_errors_witness :
  is_connected Fake.rejected.2.1 = is_connected Fake.fresh ∧
  errlog Fake.rejected.2.2 = errlog Fake.world1 ++
    (if decide (resp_type (mkResponse ERROR None (Some "Table undefined")) = ERROR)
     then [query_error_message "SELECT * FROM missing"] else []).
Proof.
  apply (native_query_restores_flag_and_logs_errors (Fake.driver Fake.rejecting)
           "SELECT * FROM missing" Fake.fresh Fake.rejected.2.1
           Fake.world1 Fake.rejected.2.2
           (mkResponse ERROR None (Some "Table undefined"))).
  apply run_eta. reflexivity.
Defined.

Lemma native_query_releases_what_it_acquired_witness :
  ∃ new,
    calls Fake.served.2.2 = calls Fake.world1 ++ new ∧
    count_calls is_cursor new = 1 ∧
    count_calls is_cursor_close new = 1 ∧
    count_calls is_connect new = (if is_connected Fake.fresh then 0 else 1) ∧
    count_calls is_close new = count_calls is_connect new ∧
    (TABLE = OK → count_calls is_commit new = 1) ∧
    (TABLE = TABLE → count_calls is_commit new = 0).
Proof.
  apply (native_query_releases_what_it_acquired (Fake.driver Fake.serving)
           "SELECT id, name FROM t" Fake.fresh Fake.served.2.1
           Fake.world1 Fake.served.2.2
           (mkResponse TABLE
              (Some (mkDataFrame ["id"; "name"] [[PInt 1; PStr "a"]; [PInt 2; PStr "b"]]))
              None)).
  apply run_eta. reflexivity.
Defined.

Lemma native_query_table_has_rows_witness :
  (TABLE = TABLE ↔
   is_Some (Some (mkDataFrame ["id"; "name"] [[PInt 1; PStr "a"]; [PInt 2; PStr "b"]]))) ∧
  (∀ df, Some (mkDataFrame ["id"; "name"] [[PInt 1; PStr "a"]; [PInt 2; PStr "b"]])
         = Some df → df_rows df ≠ []) ∧
  (TABLE = ERROR ↔ is_Some (@None string)).
Proof.
  apply (native_query_table_has_rows (Fake.driver Fake.serving)
           "SELECT id, name FROM t" (Fake.fresh, Fake.world1) Fake.served.2
           (mkResponse TABLE
              (Some (mkDataFrame ["id"; "name"] [[PInt 1; PStr "a"]; [PInt 2; PStr "b"]]))
              None)).
  apply run_eta'. reflexivity.
Defined.

Lemma native_query_raises_outside_try_witness :
  connect (Fake.driver Fake.cursorless) (Fake.fresh, Fake.world1)
    = (Raise (Exn "ProgrammingError" "the connection is already closed"),
       (Fake.refused.2.1, Fake.refused.2.2)) ∨
  (is_connected Fake.refused.2.1 = true ∧
   ((∃ c, last (calls Fake.refused.2.2) = Some c ∧
          raised_by (Fake.driver Fake.cursorless)
            (Exn "ProgrammingError" "the connection is already closed") c) ∨
    (connection Fake.fresh = None ∧
     Exn "ProgrammingError" "the connection is already closed"
     = AttributeError_None "cursor"))).
Proof.
  apply (native_query_raises_outside_try (Fake.driver Fake.cursorless) "SELECT 1").
  apply run_eta. reflexivity.
Defined.

Lemma get_columns_answers_from_description_witness :
  let q := "SELECT * from " +:+ "foo" +:+ " LIMIT 5" in
  is_connected Fake.described.2.1 = is_connected Fake.fresh ∧
  (∃ cur, CallExecute cur q ∈ drop (length (calls Fake.world1)) (calls Fake.described.2.2)) ∧
  ((∃ cur d desc,
      drv_description (Fake.driver Fake.serving) cur d = Some desc ∧
      mkResponse TABLE
        (Some (mkDataFrame ["column_name"; "data_type"]
                 [[PStr "id"; PStr "INTEGER"]; [PStr "name"; PStr "VARCHAR"]])) None
      = mkResponse TABLE
          (Some (mkDataFrame ["column_name"; "data_type"] (column_rows desc))) None ∧
      errlog Fake.described.2.2 = errlog Fake.world1) ∨
   (∃ msg,
      mkResponse TABLE
        (Some (mkDataFrame ["column_name"; "data_type"]
                 [[PStr "id"; PStr "INTEGER"]; [PStr "name"; PStr "VARCHAR"]])) None
      = mkResponse ERROR None (Some msg) ∧
      errlog Fake.described.2.2 = errlog Fake.world1 ++ [query_error_message q])).
Proof.
  apply (get_columns_answers_from_description (Fake.driver Fake.serving) "foo"
           Fake.fresh Fake.described.2.1 Fake.world1 Fake.described.2.2).
  apply run_eta. reflexivity.
Defined.

Lemma get_columns_raises_outside_try_witness :
  connect (Fake.driver Fake.cursorless) (Fake.fresh, Fake.world1)
    = (Raise (Exn "ProgrammingError" "the connection is already closed"),
       (Fake.undescribed.2.1, Fake.undescribed.2.2)) ∨
  (is_connected Fake.undescribed.2.1 = true ∧
   ((∃ c, last (calls Fake.undescribed.2.2) = Some c ∧
          raised_by (Fake.driver Fake.cursorless)
            (Exn "ProgrammingError" "the connection is already closed") c) ∨
    (connection Fake.fresh = None ∧
     Exn "ProgrammingError" "the connection is already closed"
     = AttributeError_None "cursor"))).
Proof.
  apply (get_columns_raises_outside_try (Fake.driver Fake.cursorless) "foo").
  apply run_eta. reflexivity.
Defined.

Lemma get_tables_filters_witness :
  get_tables (Fake.driver Fake.catalog) (Fake.fresh, Fake.world1)
  = (Return (mkResponse TABLE
               (Some (mkDataFrame ["table_name"]
                        (table_names [[PStr "T1"; PStr "SYSTEM"]; [PStr "T2"; PStr "APP"]])))
               None),
     (native_query (Fake.driver Fake.catalog) catalog_query
        (Fake.fresh, Fake.world1)).2).
Proof.
  apply (get_tables_filters (Fake.driver Fake.catalog) (Fake.fresh, Fake.world1)
           _ "TABLE_NAME"
           [[PStr "T1"; PStr "SYSTEM"]; [PStr "T2"; PStr "APP"]]).
  - apply (run_eta' (native_query (Fake.driver Fake.catalog) catalog_query
                       (Fake.fresh, Fake.world1))). reflexivity.
  - discriminate.
  - repeat constructor.
Defined.

Lemma get_tables_ok_not_returned_witness :
  get_tables (Fake.driver Fake.updating) (Fake.fresh, Fake.world1)
  = (Raise (Exn "TypeError" "'NoneType' object is not subscriptable"),
     (native_query (Fake.driver Fake.updating) catalog_query (Fake.fresh, Fake.world1)).2).
Proof.
  apply (get_tables_ok_not_returned (Fake.driver Fake.updating)
           (Fake.fresh, Fake.world1) _ (mkResponse OK None None)).
  - apply (run_eta' (native_query (Fake.driver Fake.updating) catalog_query
                       (Fake.fresh, Fake.world1))). reflexivity.
  - reflexivity.
Defined.
